(** * OAuth 2.1 resource-server middleware of go-mcp-server-sample

    A shallow embedding of [oauth_middleware.go]: the claim policy
    ([validateAudience], [validateIssuer], [validateExpiration],
    [validateScope]), the rejection protocol ([sendUnauthorized]), the
    middleware itself ([OAuthMiddleware]) and the protected-resource
    metadata handler ([HandleProtectedResourceMetadata]).

    Go strings are byte strings and are modelled by [string]; [int64] is a
    [Z] with its wrap-around written out; [float64] is the IEEE-754 binary64
    datatype of the standard library ([spec_float]); [jwt.MapClaims], a
    [map[string]any], is a [gmap string any]. The third-party parser
    [jwt.Parse] and the platform's conversion of an unrepresentable
    [float64] are parameters. *)

From Stdlib Require Import ZArith QArith Qround Lia Ascii.
From Stdlib Require String.
From Stdlib Require Import Floats.SpecFloat.
From stdpp Require Import base option list strings gmap.

Close Scope Q_scope.
Local Open Scope Z_scope.

(** ** Go strings *)

Module strings.

(** [strings.TrimPrefix(s, prefix)]: [s] without the leading [prefix], or
    [s] itself when it does not start with [prefix]. *)
Fixpoint CutPrefix (s prefix : string) {struct prefix} : option string :=
  match prefix, s with
  | EmptyString, _ => Some s
  | String p prefix', String c s' =>
      if Ascii.eqb c p then CutPrefix s' prefix' else None
  | String _ _, EmptyString => None
  end.

Definition HasPrefix (s prefix : string) : bool :=
  match CutPrefix s prefix with Some _ => true | None => false end.

Definition TrimPrefix (s prefix : string) : string :=
  match CutPrefix s prefix with Some rest => rest | None => s end.

(** [strings.Split(s, sep)] for a separator of one byte, which is how the
    middleware calls it: the pieces of [s] between the occurrences of
    [sep], in order; a string without separator gives one piece, and so
    does the empty string. *)
Fixpoint Split (s : string) (sep : ascii) : list string :=
  match s with
  | EmptyString => [EmptyString]
  | String c s' =>
      if Ascii.eqb c sep then EmptyString :: Split s' sep
      else match Split s' sep with
           | piece :: pieces => String c piece :: pieces
           | [] => [String c EmptyString]
           end
  end.

End strings.

(** ** Numbers *)

(** Range of Go's [int64] and the wrap-around of its arithmetic. *)
Definition int64_min : Z := - 2 ^ 63.
Definition int64_max : Z := 2 ^ 63 - 1.

Definition in_int64 (z : Z) : bool := (int64_min <=? z) && (z <=? int64_max).

Definition wrap64 (z : Z) : Z := (z + 2 ^ 63) mod 2 ^ 64 - 2 ^ 63.

Definition int64_add (a b : Z) : Z := wrap64 (a + b).

(** Go's [float64]. *)
Definition float64 : Type := spec_float.

Definition float64_valid (f : float64) : bool := valid_binary 53 1024 f.

(** The integer a finite [float64] becomes when its fraction is discarded
    (truncation towards zero); nothing for an infinity or a NaN. *)
Definition float64_discard_fraction (f : float64) : option Z :=
  match f with
  | S754_zero _ => Some 0
  | S754_finite s m e =>
      let a := if 0 <=? e then Z.pos m * 2 ^ e else Z.shiftr (Z.pos m) (- e) in
      Some (if s then - a else a)
  | S754_infinity _ | S754_nan => None
  end.

(** The number a [float64] denotes, as a rational (0 for what is no number). *)
Definition float64_val (f : float64) : Q :=
  match f with
  | S754_finite s m e =>
      let n := if s then Z.neg m else Z.pos m in
      if 0 <=? e then inject_Z (n * 2 ^ e)
      else Qmake n (2 ^ Z.to_pos (- e))%positive
  | _ => 0%Q
  end.

(** Truncation of a rational towards zero. *)
Definition Qtrunc (q : Q) : Z := Z.quot (Qnum q) (Z.pos (Qden q)).

(** ** MIME headers (Go's [net/textproto], on which [http.Header] rests) *)

Module textproto.

Definition byte_in (lo hi : nat) (c : ascii) : bool :=
  (lo <=? nat_of_ascii c)%nat && (nat_of_ascii c <=? hi)%nat.

Definition is_lower : ascii -> bool := byte_in 97 122.
Definition is_upper : ascii -> bool := byte_in 65 90.
Definition is_digit : ascii -> bool := byte_in 48 57.

(** The bytes of an RFC 7230 token: letters, digits and
    ! # $ % & ' * + - . ^ _ ` | ~ *)
Definition validHeaderFieldByte (c : ascii) : bool :=
  is_lower c || is_upper c || is_digit c ||
  existsb (Nat.eqb (nat_of_ascii c))
    [33; 35; 36; 37; 38; 39; 42; 43; 45; 46; 94; 95; 96; 124; 126]%nat.

Definition toLower : nat := 32.

Fixpoint all_bytes (P : ascii -> bool) (s : string) : bool :=
  match s with
  | EmptyString => true
  | String c s' => P c && all_bytes P s'
  end.

Fixpoint canonicalize (upper : bool) (a : string) : string :=
  match a with
  | EmptyString => EmptyString
  | String c a' =>
      let c' :=
        if upper && is_lower c then ascii_of_nat (nat_of_ascii c - toLower)
        else if negb upper && is_upper c then ascii_of_nat (nat_of_ascii c + toLower)
        else c in
      String c' (canonicalize (Ascii.eqb c' "-") a')
  end.

(** [textproto.CanonicalMIMEHeaderKey]: the first letter and every letter
    after a hyphen in upper case, the others in lower case; a key holding a
    byte that is no token byte is returned as it is. *)
Definition CanonicalMIMEHeaderKey (s : string) : string :=
  if all_bytes validHeaderFieldByte s then canonicalize true s else s.

Abbreviation MIMEHeader := (gmap string (list string)).

Definition Get (h : MIMEHeader) (key : string) : string :=
  match h !! CanonicalMIMEHeaderKey key with
  | Some (v :: _) => v
  | _ => EmptyString
  end.

Definition Set_ (h : MIMEHeader) (key value : string) : MIMEHeader :=
  <[CanonicalMIMEHeaderKey key := [value]]> h.

Definition Del (h : MIMEHeader) (key : string) : MIMEHeader :=
  delete (CanonicalMIMEHeaderKey key) h.

End textproto.

(** ** Values of Go's [any], as [encoding/json] decodes a JSON document *)

#[warnings="-register-all"]
Inductive any : Type :=
| Nil
| Bool (b : bool)
| Float64 (f : float64)
| Str (s : string)
| Slice (l : list any)
| Object (m : list (string * any)).

(** ** [oauthex.ProtectedResourceMetadata], the fields the handler fills in *)

Module oauthex.

Record ProtectedResourceMetadata := {
  Resource : string;
  AuthorizationServers : list string;
  ScopesSupported : list string
}.

End oauthex.

(** ** [net/http] *)

Module http.

Definition StatusOK : Z := 200.
Definition StatusUnauthorized : Z := 401.

Record Request := {
  Method : string;
  Path : string;
  Header : textproto.MIMEHeader;
  Body : string;
  Ctx : gmap string any
}.

(** What a handler writes to the body: bytes, or a document handed to
    [json.NewEncoder(w).Encode], which sends its JSON text and a newline. *)
Inductive Chunk :=
| Bytes (s : string)
| Encoded (doc : oauthex.ProtectedResourceMetadata).

(** A [ResponseWriter]: the header map that [w.Header()] returns, the status
    line with the headers as they stood when it was written, and the body
    written so far. *)
Record ResponseWriter := {
  header : textproto.MIMEHeader;
  wrote : option (Z * textproto.MIMEHeader);
  body : list Chunk
}.

Definition NewResponse : ResponseWriter :=
  {| header := ∅; wrote := None; body := [] |}.

Definition SetHeader (key value : string) (w : ResponseWriter) : ResponseWriter :=
  {| header := textproto.Set_ (header w) key value;
     wrote := wrote w; body := body w |}.

Definition DelHeader (key : string) (w : ResponseWriter) : ResponseWriter :=
  {| header := textproto.Del (header w) key;
     wrote := wrote w; body := body w |}.

(** [w.WriteHeader(code)]: the first call fixes status and headers; a later
    one changes nothing. *)
Definition WriteHeader (code : Z) (w : ResponseWriter) : ResponseWriter :=
  match wrote w with
  | Some _ => w
  | None => {| header := header w; wrote := Some (code, header w); body := body w |}
  end.

(** [w.Write]: writes the status line with 200 first when none was written. *)
Definition Write (c : Chunk) (w : ResponseWriter) : ResponseWriter :=
  let w' := WriteHeader StatusOK w in
  {| header := header w'; wrote := wrote w'; body := body w' ++ [c] |}.

Definition newline : string := String (ascii_of_nat 10) EmptyString.

(** [http.Error(w, error, code)]: a plain-text reply with the message and a
    newline as body. *)
Definition Error (error : string) (code : Z) (w : ResponseWriter) : ResponseWriter :=
  let w := DelHeader "Content-Length" w in
  let w := SetHeader "Content-Type" "text/plain; charset=utf-8" w in
  let w := SetHeader "X-Content-Type-Options" "nosniff" w in
  let w := WriteHeader code w in
  Write (Bytes (error +:+ newline)) w.

(** What the client sees. *)
Definition status (w : ResponseWriter) : option Z := fst <$> wrote w.

Definition sent_header (w : ResponseWriter) (key : string) : string :=
  match wrote w with
  | Some (_, h) => textproto.Get h key
  | None => EmptyString
  end.

End http.

(** ** [github.com/golang-jwt/jwt/v5], the interface the middleware uses *)

Module jwt.

Definition error : Type := string.

Inductive Claims :=
| MapClaims (m : gmap string any)
| OtherClaims.

Record Token := {
  Raw : string;
  Alg : string;
  TokenClaims : Claims;
  Valid : bool
}.

Inductive ParserOption :=
| WithValidMethods (methods : list string).

(** The library is a parameter of the development: the type of the key
    function that [keyfunc.NewDefault] builds from the JWKS, [jwt.Parse]
    itself (it returns a token or an error), and the signing algorithm a
    raw token declares in its header, when it has a readable header. *)
Class Library := {
  Keyfunc : Type;
  Parse : string -> Keyfunc -> list ParserOption -> Token + error;
  DeclaredAlg : string -> option string
}.

(** The documented contract of [jwt.WithValidMethods]: with this option a
    token is only parsed successfully when the algorithm it declares is one
    of the listed methods. *)
Definition EnforcesValidMethods (L : Library) : Prop :=
  forall tokenString keyFunc opts token methods,
    Parse tokenString keyFunc opts = inl token ->
    In (WithValidMethods methods) opts ->
    exists alg, DeclaredAlg tokenString = Some alg /\ In alg methods.

(** The default claims validation of [jwt.Parse], which the middleware
    relies on ("jwt.Parse already validates exp by default") and for which it
    configures no leeway: a token is parsed successfully only when the
    claims it carries are the claims of the result and their [exp], when it
    is a number, lies after the current time [now]. [payload] gives the
    claims a raw token carries. *)
Definition ValidatesExpiration (L : Library)
    (payload : string -> option (gmap string any)) (now : Z) : Prop :=
  forall tokenString keyFunc opts token,
    Parse tokenString keyFunc opts = inl token ->
    exists claims,
      payload tokenString = Some claims /\
      TokenClaims token = MapClaims claims /\
      forall exp, claims !! "exp" = Some (Float64 exp) ->
                  (inject_Z now < float64_val exp)%Q.

End jwt.

(** ** The conversion [int64(x)] of a [float64] *)

(** The Go specification leaves the result implementation-dependent when the
    value does not fit the integer type; that result is a parameter. *)
Class Platform := {
  int64_of_unrepresentable : float64 -> Z
}.

Definition int64_of_float64 `{Platform} (x : float64) : Z :=
  match float64_discard_fraction x with
  | Some z => if in_int64 z then z else wrap64 (int64_of_unrepresentable x)
  | None => wrap64 (int64_of_unrepresentable x)
  end.

(** ** What one request sees and leaves behind *)

(** The arguments of a [log.Printf] call are kept as they are passed. *)
Inductive LogArg :=
| ArgString (s : string)
| ArgError (e : jwt.error)
| ArgClaimsJSON (claims : gmap string any).

Record LogEntry := Printf { format : string; args : list LogArg }.

(** The request [r], the response writer [w], the process log, and the
    reading [time.Now().Unix()] gives during the request. *)
Record Exchange := {
  req : http.Request;
  resp : http.ResponseWriter;
  logs : list LogEntry;
  unix_now : Z
}.

Definition Handler : Type := Exchange -> Exchange.

Definition log_Printf (fmt : string) (a : list LogArg) (x : Exchange) : Exchange :=
  {| req := req x; resp := resp x;
     logs := logs x ++ [Printf fmt a]; unix_now := unix_now x |}.

Definition on_resp (f : http.ResponseWriter -> http.ResponseWriter) (x : Exchange)
  : Exchange :=
  {| req := req x; resp := f (resp x); logs := logs x; unix_now := unix_now x |}.

(** How the body of a handler ends: it returns, or its last action is the
    call [next.ServeHTTP(w, r)]. *)
Inductive Outcome :=
| Return (x : Exchange)
| ServeNext (x : Exchange).

Definition run (next : Handler) (o : Outcome) : Exchange :=
  match o with
  | Return x => x
  | ServeNext x => next x
  end.

Definition dquote : string := String (ascii_of_nat 34) EmptyString.

(** ** oauth_middleware.go *)

Section OAuth.

Context `{L : jwt.Library} `{P : Platform}.

Record OAuthConfig := {
  AuthzServerURL : string;
  JwksURL : string;
  ResourceURL : string;
  jwks : jwt.Keyfunc
}.

Definition validateAudience (c : OAuthConfig) (claims : gmap string any) : bool :=
  match claims !! "aud" with
  | None => false
  | Some (Str v) => String.eqb v (ResourceURL c)
  | Some (Slice v) =>
      existsb (fun a => match a with
                        | Str audStr => String.eqb audStr (ResourceURL c)
                        | _ => false
                        end) v
  | Some _ => false
  end.

Definition validateIssuer (c : OAuthConfig) (claims : gmap string any) : bool :=
  match claims !! "iss" with
  | Some (Str iss) => String.eqb iss (AuthzServerURL c)
  | _ => false
  end.

Definition validateExpiration (c : OAuthConfig) (now : Z) (claims : gmap string any)
  : bool :=
  match claims !! "exp" with
  | Some (Float64 exp) => now <? int64_add (int64_of_float64 exp) 60
  | _ => false
  end.

Definition validateScope (c : OAuthConfig) (claims : gmap string any) : bool :=
  match claims !! "scope" with
  | Some (Str scope) =>
      existsb (fun s => String.eqb s "mcp:tools") (strings.Split scope " ")
  | _ => false
  end.

Definition metadataURL (c : OAuthConfig) : string :=
  ResourceURL c +:+ "/.well-known/oauth-protected-resource".

Definition challenge (c : OAuthConfig) : string :=
  "Bearer resource_metadata=" +:+ dquote +:+ metadataURL c +:+ dquote.

Definition sendUnauthorized (c : OAuthConfig) (x : Exchange) : Exchange :=
  let x := on_resp (http.SetHeader "WWW-Authenticate" (challenge c)) x in
  on_resp (http.Error "Unauthorized" http.StatusUnauthorized) x.

(** The function literal that [OAuthMiddleware] wraps around [next]. *)
Definition OAuthMiddleware_func (c : OAuthConfig) (x : Exchange) : Outcome :=
  let authHeader := textproto.Get (http.Header (req x)) "Authorization" in
  if String.eqb authHeader "" then Return (sendUnauthorized c x) else
  let tokenString := strings.TrimPrefix authHeader "Bearer " in
  if String.eqb tokenString authHeader then Return (sendUnauthorized c x) else
  match jwt.Parse tokenString (jwks c) [jwt.WithValidMethods ["RS256"]] with
  | inr err =>
      let x := log_Printf "Failed to parse token: %v" [ArgError err] x in
      Return (sendUnauthorized c x)
  | inl token =>
      if negb (jwt.Valid token) then
        let x := log_Printf "Invalid token" [] x in
        Return (sendUnauthorized c x)
      else
      match jwt.TokenClaims token with
      | jwt.OtherClaims =>
          let x := log_Printf "Invalid claims type" [] x in
          Return (sendUnauthorized c x)
      | jwt.MapClaims claims =>
          let x := log_Printf "=== JWT Access Token Debug ===" [] x in
          let x := log_Printf "Raw Token: %s" [ArgString tokenString] x in
          let x := log_Printf "Claims: %s" [ArgClaimsJSON claims] x in
          let x := log_Printf "===============================" [] x in
          if negb (validateAudience c claims) then
            let x := log_Printf "Invalid audience" [] x in
            Return (sendUnauthorized c x)
          else if negb (validateIssuer c claims) then
            let x := log_Printf "Invalid issuer" [] x in
            Return (sendUnauthorized c x)
          else if negb (validateExpiration c (unix_now x) claims) then
            let x := log_Printf "Token expired" [] x in
            Return (sendUnauthorized c x)
          else if negb (validateScope c claims) then
            let x := log_Printf "Insufficient scope" [] x in
            Return (sendUnauthorized c x)
          else ServeNext x
      end
  end.

Definition OAuthMiddleware (c : OAuthConfig) (next : Handler) : Handler :=
  fun x => run next (OAuthMiddleware_func c x).

Definition HandleProtectedResourceMetadata (c : OAuthConfig) : Handler :=
  fun x =>
  let x := on_resp (http.SetHeader "Access-Control-Allow-Origin" "*") x in
  let x := on_resp (http.SetHeader "Access-Control-Allow-Methods" "GET, OPTIONS") x in
  let x := on_resp (http.SetHeader "Access-Control-Allow-Headers" "Content-Type") x in
  if String.eqb (http.Method (req x)) "OPTIONS" then
    on_resp (http.WriteHeader http.StatusOK) x
  else
  let metadata :=
    {| oauthex.Resource := ResourceURL c;
       oauthex.ScopesSupported := ["mcp:tools"];
       oauthex.AuthorizationServers := [AuthzServerURL c] |} in
  let x := on_resp (http.SetHeader "Content-Type" "application/json") x in
  on_resp (http.Write (http.Encoded metadata)) x.

End OAuth.

(** ** Vocabulary of the statements *)

Section Vocabulary.

Context `{L : jwt.Library} `{P : Platform}.

(** The request presents [tokenString] as bearer token. *)
Definition presents (x : Exchange) (tokenString : string) : Prop :=
  textproto.Get (http.Header (req x)) "Authorization" = "Bearer " +:+ tokenString.

(** The token the request presents passes [jwt.Parse] with the RS256
    allow-list and carries the claim set [claims]. *)
Definition verified_claims (c : OAuthConfig) (x : Exchange) (claims : gmap string any)
  : Prop :=
  exists tokenString token,
    presents x tokenString /\
    jwt.Parse tokenString (jwks c) [jwt.WithValidMethods ["RS256"]] = inl token /\
    jwt.Valid token = true /\
    jwt.TokenClaims token = jwt.MapClaims claims.

(** The reply of [sendUnauthorized], as the client sees it. *)
Definition unauthorized_reply (c : OAuthConfig) (before after : http.ResponseWriter)
  : Prop :=
  http.status after = Some 401 /\
  http.sent_header after "WWW-Authenticate" = challenge c /\
  http.body after = http.body before ++ [http.Bytes ("Unauthorized" +:+ http.newline)].

(** The middleware answers the request itself, with the 401 challenge. *)
Definition rejects (c : OAuthConfig) (x : Exchange) : Prop :=
  exists x', OAuthMiddleware_func c x = Return x' /\
             req x' = req x /\
             unauthorized_reply c (resp x) (resp x').

(** The middleware hands request and response writer on as it got them. *)
Definition forwards (c : OAuthConfig) (x : Exchange) : Prop :=
  exists x', OAuthMiddleware_func c x = ServeNext x' /\
             req x' = req x /\ resp x' = resp x.

(** The four debug lines written before the claims are checked. *)
Definition debug_dump (tokenString : string) (claims : gmap string any) (x : Exchange)
  : Exchange :=
  let x := log_Printf "=== JWT Access Token Debug ===" [] x in
  let x := log_Printf "Raw Token: %s" [ArgString tokenString] x in
  let x := log_Printf "Claims: %s" [ArgClaimsJSON claims] x in
  log_Printf "===============================" [] x.

(** All four checks of the claim policy hold. *)
Definition policy_passes (c : OAuthConfig) (now : Z) (claims : gmap string any) : bool :=
  validateAudience c claims && validateIssuer c claims &&
  validateExpiration c now claims && validateScope c claims.

End Vocabulary.

(** A scope string read as its space-delimited tokens: the string is the
    tokens joined by single spaces, and no token holds a space. *)
Fixpoint Join (elems : list string) (sep : string) : string :=
  match elems with
  | [] => EmptyString
  | [e] => e
  | e :: rest => e +:+ sep +:+ Join rest sep
  end.

Fixpoint spaceless (s : string) : bool :=
  match s with
  | EmptyString => true
  | String c s' => negb (Ascii.eqb c " ") && spaceless s'
  end.

Definition scope_tokens (scope : string) (tokens : list string) : Prop :=
  tokens <> [] /\ Forall (fun t => spaceless t = true) tokens /\
  scope = Join tokens " ".

(** The [aud] claim names [url]: as the one string, or as a string element
    of the collection. *)
Definition audience_contains (aud : option any) (url : string) : Prop :=
  aud = Some (Str url) \/ exists l, aud = Some (Slice l) /\ In (Str url) l.

Definition is_Str (v : option any) : bool :=
  match v with Some (Str _) => true | _ => false end.

Definition is_Slice (v : option any) : bool :=
  match v with Some (Slice _) => true | _ => false end.

Definition is_Float64 (v : option any) : bool :=
  match v with Some (Float64 _) => true | _ => false end.

Definition float64_finite (f : float64) : bool :=
  match f with
  | S754_zero _ | S754_finite _ _ _ => true
  | _ => false
  end.

(** ** A test double of the library, and sample requests *)

(** The binary64 number [m * 2 ^ e], with its mantissa normalised. *)
Definition binary64 (m : positive) (e : Z) : float64 :=
  let shift := 53 - Z.pos (Pos.size m) in
  S754_finite false (Z.to_pos (Z.shiftl (Z.pos m) shift)) (e - shift).

(** x86-64 converts what does not fit to the smallest [int64]. *)
Definition amd64 : Platform := {| int64_of_unrepresentable := fun _ => int64_min |}.

Definition sample_claims (aud : any) (exp : any) (scope : any) : gmap string any :=
  <["iss" := Str "http://auth.example"]>
  (<["aud" := aud]> (<["exp" := exp]> (<["scope" := scope]> ∅))).

(** The double stands for the library as it behaves at this Unix time. *)
Definition sample_clock : Z := 1060.

(** The expiry validation of the double: [exp] may be absent; when present
    it has to be a number after the current time. *)
Definition claims_valid_at (now : Z) (claims : gmap string any) : bool :=
  match claims !! "exp" with
  | None => true
  | Some (Float64 exp) => negb (Qle_bool (float64_val exp) (inject_Z now))
  | Some _ => false
  end.

(** The tokens the double knows, with the algorithm each declares and the
    claims it carries. *)
Definition sample_tokens : list (string * (string * gmap string any)) :=
  [ ("good", ("RS256", sample_claims (Slice [Str "http://res.example"])
                         (Float64 (binary64 1061 0)) (Str "mcp:tools read")));
    ("fractional", ("RS256", sample_claims (Str "http://res.example")
                         (Float64 (binary64 2001 (-1))) (Str "mcp:tools")));
    ("recent", ("RS256", sample_claims (Str "http://res.example")
                         (Float64 (binary64 1030 0)) (Str "mcp:tools")));
    ("mixed-aud", ("RS256", sample_claims
                         (Slice [Float64 (binary64 7 0); Object []; Str "http://res.example"])
                         (Float64 (binary64 1061 0)) (Str "read mcp:tools")));
    ("other-aud", ("RS256", sample_claims (Slice [Str "http://other.example"])
                         (Float64 (binary64 1061 0)) (Str "mcp:tools")));
    ("no-scope", ("RS256", delete "scope"
                         (sample_claims (Str "http://res.example")
                            (Float64 (binary64 1061 0)) Nil)));
    ("text-exp", ("RS256", sample_claims (Str "http://res.example")
                         (Str "1061") (Str "mcp:tools")));
    ("unsigned", ("none", sample_claims (Str "http://res.example")
                         (Float64 (binary64 1061 0)) (Str "mcp:tools")));
    ("symmetric", ("HS256", sample_claims (Str "http://res.example")
                         (Float64 (binary64 1061 0)) (Str "mcp:tools"))) ].

Fixpoint assoc {A} (k : string) (l : list (string * A)) : option A :=
  match l with
  | [] => None
  | (k', v) :: l' => if String.eqb k k' then Some v else assoc k l'
  end.

Definition method_allowed (alg : string) (opts : list jwt.ParserOption) : bool :=
  forallb (fun o => match o with
                    | jwt.WithValidMethods methods => existsb (String.eqb alg) methods
                    end) opts.

Definition sample_Parse (tokenString : string) (_ : unit) (opts : list jwt.ParserOption)
  : jwt.Token + jwt.error :=
  match assoc tokenString sample_tokens with
  | None => inr "token is malformed"
  | Some (alg, claims) =>
      if method_allowed alg opts then
        if claims_valid_at sample_clock claims then
          inl {| jwt.Raw := tokenString; jwt.Alg := alg;
                 jwt.TokenClaims := jwt.MapClaims claims; jwt.Valid := true |}
        else inr "token has invalid claims: token is expired"
      else inr "token signature is invalid: signing method is invalid"
  end.

Definition sample_payload (tokenString : string) : option (gmap string any) :=
  snd <$> assoc tokenString sample_tokens.

Definition sample_library : jwt.Library :=
  {| jwt.Keyfunc := unit;
     jwt.Parse := sample_Parse;
     jwt.DeclaredAlg := fun tokenString => fst <$> assoc tokenString sample_tokens |}.

Definition claims_of (tokenString : string) : gmap string any :=
  match assoc tokenString sample_tokens with
  | Some (_, claims) => claims
  | None => ∅
  end.

Definition sample_config : @OAuthConfig sample_library :=
  @Build_OAuthConfig sample_library
    "http://auth.example" "http://auth.example/certs" "http://res.example" tt.

Definition sample_request (method : string) (authorization : option string)
  : http.Request :=
  {| http.Method := method; http.Path := "/";
     http.Header := match authorization with
                    | Some v => {[ "Authorization" := [v] ]}
                    | None => ∅
                    end;
     http.Body := EmptyString; http.Ctx := ∅ |}.

Definition sample_exchange (method : string) (authorization : option string) (now : Z)
  : Exchange :=
  {| req := sample_request method authorization; resp := http.NewResponse;
     logs := []; unix_now := now |}.

(** ** The rest of the program *)

(** [main.go]: the echo tool. Its context and request arguments are not
    used. It returns the result, a nil value and a nil error. *)
Module mcp.

Inductive Content :=
| TextContent (Text : string).

Record CallToolResult := { Content_ : list Content }.

End mcp.

Record EchoArgs := { Message : string }.

Definition Echo (args : EchoArgs) : mcp.CallToolResult * any * option jwt.error :=
  ({| mcp.Content_ := [mcp.TextContent ("Echo: " +:+ Message args)] |}, Nil, None).

(** ** Further vocabulary *)

(** The exchange an outcome carries. *)
Definition outcome_exchange (o : Outcome) : Exchange :=
  match o with
  | Return x => x
  | ServeNext x => x
  end.

(** * Properties *)

(** ** Strings *)

Lemma length_app_string (a b : string) :
  String.length (a +:+ b) = (String.length a + String.length b)%nat.
Proof. induction a as [|c a IH]; simpl; [reflexivity | now rewrite IH]. Qed.

Lemma CutPrefix_Some (s prefix rest : string) :
  strings.CutPrefix s prefix = Some rest <-> s = prefix +:+ rest.
Proof.
  revert s. induction prefix as [|p prefix IH]; intros s; simpl.
  - split; [intros [= ->] | intros ->]; reflexivity.
  - destruct s as [|c s]; [split; discriminate |].
    destruct (Ascii.eqb_spec c p) as [-> | Hne].
    + rewrite IH. split; [intros -> | intros [= ->]]; reflexivity.
    + split; [discriminate | intros [= -> _]; contradiction].
Qed.

Lemma TrimPrefix_present (prefix rest : string) :
  strings.TrimPrefix (prefix +:+ rest) prefix = rest.
Proof.
  unfold strings.TrimPrefix.
  now rewrite (proj2 (CutPrefix_Some (prefix +:+ rest) prefix rest) eq_refl).
Qed.

Lemma TrimPrefix_absent (s prefix : string) :
  strings.HasPrefix s prefix = false -> strings.TrimPrefix s prefix = s.
Proof.
  unfold strings.HasPrefix, strings.TrimPrefix.
  destruct (strings.CutPrefix s prefix); [discriminate | reflexivity].
Qed.

Lemma longer_differs (c : ascii) (prefix rest : string) :
  rest <> String c prefix +:+ rest.
Proof.
  intros H. apply (f_equal String.length) in H.
  rewrite length_app_string in H. simpl in H. lia.
Qed.

Lemma Split_nonempty (s : string) (sep : ascii) : strings.Split s sep <> [].
Proof.
  destruct s as [|c s]; simpl; [discriminate |].
  destruct (Ascii.eqb c sep); [discriminate |].
  destruct (strings.Split s sep); discriminate.
Qed.

Lemma Join_cons_cons (e e' : string) (rest : list string) (sep : string) :
  Join (e :: e' :: rest) sep = e +:+ sep +:+ Join (e' :: rest) sep.
Proof. reflexivity. Qed.

Lemma Join_String (c : ascii) (e : string) (rest : list string) (sep : string) :
  Join (String c e :: rest) sep = String c (Join (e :: rest) sep).
Proof. destruct rest; reflexivity. Qed.

(** Joining the pieces of [Split] with the separator gives the string back. *)
Lemma Join_Split (s : string) : Join (strings.Split s " ") " " = s.
Proof.
  induction s as [|c s IH]; simpl; [reflexivity |].
  destruct (Ascii.eqb_spec c " ") as [-> | Hne].
  - pose proof (Split_nonempty s " ") as Hn.
    destruct (strings.Split s " ") as [|p ps] eqn:E; [contradiction |].
    rewrite Join_cons_cons, IH. reflexivity.
  - pose proof (Split_nonempty s " ") as Hn.
    destruct (strings.Split s " ") as [|p ps] eqn:E; [contradiction |].
    rewrite Join_String, IH. reflexivity.
Qed.

Lemma Split_spaceless (s : string) :
  Forall (fun t => spaceless t = true) (strings.Split s " ").
Proof.
  induction s as [|c s IH]; simpl.
  - repeat constructor.
  - destruct (Ascii.eqb c " ") eqn:Ec.
    + constructor; [reflexivity | exact IH].
    + destruct (strings.Split s " ") as [|p ps]; [repeat constructor; simpl; now rewrite Ec |].
      inversion IH as [|? ? Hp Hps]; subst.
      constructor; [simpl; now rewrite Ec, Hp | exact Hps].
Qed.

Lemma Split_spaceless_one (t : string) :
  spaceless t = true -> strings.Split t " " = [t].
Proof.
  induction t as [|c t IH]; simpl; [reflexivity |].
  intros H. apply andb_prop in H as [Hc Ht].
  apply negb_true_iff in Hc. rewrite Hc, (IH Ht). reflexivity.
Qed.

Lemma Split_spaceless_app (t rest : string) :
  spaceless t = true ->
  strings.Split (t +:+ " " +:+ rest) " " = t :: strings.Split rest " ".
Proof.
  induction t as [|c t IH]; simpl; [reflexivity |].
  intros H. apply andb_prop in H as [Hc Ht].
  apply negb_true_iff in Hc. rewrite Hc.
  change (String " " rest) with (" " +:+ rest).
  rewrite (IH Ht). reflexivity.
Qed.

(** [Split] undoes [Join] on tokens without spaces. *)
Lemma Split_Join (tokens : list string) :
  tokens <> [] -> Forall (fun t => spaceless t = true) tokens ->
  strings.Split (Join tokens " ") " " = tokens.
Proof.
  induction tokens as [|t ts IH]; [contradiction |].
  intros _ Hall. inversion Hall as [|? ? Ht Hts]; subst.
  destruct ts as [|t' ts].
  - simpl. now apply Split_spaceless_one.
  - rewrite Join_cons_cons, (Split_spaceless_app _ _ Ht), IH; [reflexivity | discriminate | exact Hts].
Qed.

Lemma existsb_eqb_In (t : string) (l : list string) :
  existsb (fun s => String.eqb s t) l = true <-> In t l.
Proof.
  rewrite existsb_exists. split.
  - intros (s & Hin & Heq). apply String.eqb_eq in Heq. now subst.
  - intros Hin. exists t. split; [exact Hin | apply String.eqb_refl].
Qed.

(** ** Numbers *)

Lemma digits2_pos_size (m : positive) : digits2_pos m = Pos.size m.
Proof. induction m; simpl; congruence. Qed.

(** The mantissa of a binary64 number has at most 53 bits. *)
Lemma float64_valid_mantissa (s : bool) (m : positive) (e : Z) :
  float64_valid (S754_finite s m e) = true -> Z.pos m < 2 ^ 53.
Proof.
  unfold float64_valid, valid_binary, bounded, canonical_mantissa, fexp, emin.
  intros H. apply andb_prop in H as [H _].
  apply Z.eqb_eq in H. rewrite digits2_pos_size in H.
  assert (Hd : Z.pos (Pos.size m) <= 53) by lia.
  pose proof (Pos.size_gt m) as Hgt.
  apply Pos2Z.pos_lt_pos in Hgt. rewrite Pos2Z.inj_pow in Hgt.
  apply Z.lt_le_trans with (1 := Hgt).
  apply Z.pow_le_mono_r; lia.
Qed.

Lemma Qtrunc_inject_Z (k : Z) : Qtrunc (inject_Z k) = k.
Proof. unfold Qtrunc, inject_Z. simpl. apply Z.quot_1_r. Qed.

Lemma Qtrunc_integer (q : Q) (k : Z) : (q == inject_Z k)%Q -> Qtrunc q = k.
Proof.
  unfold Qeq, Qtrunc. simpl. intros H.
  rewrite Z.mul_1_r in H. rewrite H. apply Z.quot_mul. discriminate.
Qed.

(** A rational below an integer is truncated to at most that integer, and
    to less when it is not negative. *)
Lemma Qtrunc_below (q : Q) (k : Z) : (q < inject_Z k)%Q -> Qtrunc q <= k.
Proof.
  destruct q as [a d]. unfold Qlt, Qtrunc. simpl. rewrite Z.mul_1_r. intros H.
  destruct (Z.le_gt_cases 0 a) as [Ha | Ha].
  - rewrite Z.quot_div_nonneg by lia.
    apply Z.lt_le_incl, Z.div_lt_upper_bound; lia.
  - replace a with (- (- a)) by lia.
    rewrite Z.quot_opp_l by discriminate.
    rewrite Z.quot_div_nonneg by lia.
    destruct (Z.le_gt_cases 0 k) as [Hk | Hk].
    + pose proof (Z.div_pos (- a) (Z.pos d)). lia.
    + assert (- k <= - a / Z.pos d); [| lia].
      apply Z.div_le_lower_bound; lia.
Qed.

Lemma Qtrunc_shift_below (q : Q) (n : Z) :
  (q + 60 < inject_Z n)%Q -> Qtrunc q + 60 <= n.
Proof.
  intros H. assert (H' : (q < inject_Z (n - 60))%Q).
  { destruct q as [a d]. unfold Qlt, Qplus in *. simpl in *. lia. }
  apply Qtrunc_below in H'. lia.
Qed.

(** Discarding the fraction is truncation of the denoted number. *)
Lemma float64_discard_fraction_Qtrunc (f : float64) (z : Z) :
  float64_discard_fraction f = Some z -> z = Qtrunc (float64_val f).
Proof.
  destruct f as [s | s | | s m e]; simpl; try discriminate.
  - intros [= <-]. reflexivity.
  - intros [= <-]. destruct (Z.leb_spec 0 e) as [He | He].
    + rewrite Qtrunc_inject_Z. destruct s; [| reflexivity].
      change (Z.neg m) with (- Z.pos m). lia.
    + unfold Qtrunc. simpl.
      rewrite Pos2Z.inj_pow, Z2Pos.id by lia.
      rewrite Z.shiftr_div_pow2 by lia.
      assert (Hp : 0 < 2 ^ (- e)) by (apply Z.pow_pos_nonneg; lia).
      destruct s.
      * change (Z.neg m) with (- Z.pos m).
        rewrite Z.quot_opp_l by lia. rewrite Z.quot_div_nonneg by lia. reflexivity.
      * rewrite Z.quot_div_nonneg by lia. reflexivity.
Qed.

Lemma float64_finite_discard (f : float64) :
  float64_finite f = true -> exists z, float64_discard_fraction f = Some z.
Proof. destruct f; simpl; try discriminate; eauto. Qed.

Lemma wrap64_id (z : Z) : in_int64 z = true -> wrap64 z = z.
Proof.
  unfold in_int64, wrap64, int64_min, int64_max. intros H.
  apply andb_prop in H as [H1 H2]. apply Z.leb_le in H1, H2.
  rewrite Z.mod_small; lia.
Qed.

(** A binary64 number that fits [int64] stays at least 1024 below its upper
    end, so that adding the skew does not wrap around. *)
Lemma float64_int64_room (f : float64) (z : Z) :
  float64_valid f = true -> float64_discard_fraction f = Some z ->
  in_int64 z = true -> in_int64 (z + 60) = true.
Proof.
  intros Hv Hz Hin.
  assert (Hgoal : int64_min <= z /\ z + 60 <= int64_max);
    [| unfold in_int64, int64_min, int64_max in *;
       apply andb_true_intro; split; apply Z.leb_le; lia].
  unfold in_int64 in Hin. apply andb_prop in Hin as [H1 H2].
  apply Z.leb_le in H1, H2. split; [exact H1 |].
  unfold int64_min, int64_max in *.
  destruct f as [s | s | | s m e]; simpl in Hz; try discriminate.
  - injection Hz as <-. lia.
  - apply float64_valid_mantissa in Hv.
    injection Hz as <-.
    destruct s; [assert (0 <= (if 0 <=? e then Z.pos m * 2 ^ e
                           else Z.shiftr (Z.pos m) (- e)));
                 [destruct (Z.leb_spec 0 e);
                  [apply Z.mul_nonneg_nonneg; [lia | apply Z.pow_nonneg; lia]
                  | apply Z.shiftr_nonneg; lia] | lia] |].
    destruct (Z.leb_spec 0 e) as [He | He].
    + destruct (Z.le_gt_cases 6 e) as [H6 | H6].
      * replace e with (6 + (e - 6)) in * by lia.
        rewrite Z.pow_add_r in * by lia.
        set (t := Z.pos m * 2 ^ (e - 6 + 6 - 6)) in *.
        change (2 ^ 6) with 64 in *. lia.
      * assert (2 ^ e <= 2 ^ 5) by (apply Z.pow_le_mono_r; lia).
        change (2 ^ 5) with 32 in *.
        assert (0 < 2 ^ e) by (apply Z.pow_pos_nonneg; lia). nia.
    + rewrite Z.shiftr_div_pow2 by lia.
      assert (Hp : 0 < 2 ^ (- e)) by (apply Z.pow_pos_nonneg; lia).
      assert (Z.pos m / 2 ^ (- e) <= Z.pos m)
        by (apply Z.div_le_upper_bound; nia). lia.
Qed.

Section Conversion.

Context `{P : Platform}.

(** For a binary64 number that fits, [int64(x) + 60] is the truncation of
    the number plus 60, without wrap-around. *)
Lemma int64_of_float64_skew (f : float64) :
  float64_valid f = true -> float64_finite f = true ->
  in_int64 (Qtrunc (float64_val f)) = true ->
  int64_add (int64_of_float64 f) 60 = Qtrunc (float64_val f) + 60.
Proof.
  intros Hv Hf Hin.
  destruct (float64_finite_discard f Hf) as [z Hz].
  pose proof (float64_discard_fraction_Qtrunc f z Hz) as Hq. rewrite <- Hq in *.
  unfold int64_of_float64, int64_add. rewrite Hz, Hin.
  apply wrap64_id. now apply float64_int64_room with (f := f).
Qed.

End Conversion.

(** ** Headers and the response writer *)

Lemma Get_Set_eq (h : textproto.MIMEHeader) (key value : string) :
  textproto.Get (textproto.Set_ h key value) key = value.
Proof. unfold textproto.Get, textproto.Set_. now rewrite lookup_insert_eq. Qed.

Lemma Get_Set_ne (h : textproto.MIMEHeader) (key key' value : string) :
  textproto.CanonicalMIMEHeaderKey key <> textproto.CanonicalMIMEHeaderKey key' ->
  textproto.Get (textproto.Set_ h key value) key' = textproto.Get h key'.
Proof.
  intros Hne. unfold textproto.Get, textproto.Set_. now rewrite lookup_insert_ne.
Qed.

Lemma Get_Del_ne (h : textproto.MIMEHeader) (key key' : string) :
  textproto.CanonicalMIMEHeaderKey key <> textproto.CanonicalMIMEHeaderKey key' ->
  textproto.Get (textproto.Del h key) key' = textproto.Get h key'.
Proof.
  intros Hne. unfold textproto.Get, textproto.Del. now rewrite lookup_delete_ne.
Qed.

Lemma Get_absent (h : textproto.MIMEHeader) (key : string) :
  h !! textproto.CanonicalMIMEHeaderKey key = None -> textproto.Get h key = EmptyString.
Proof. unfold textproto.Get. now intros ->. Qed.

(** Two header names differ after canonicalisation. *)
Ltac distinct_keys :=
  let H := fresh in intros H; vm_compute in H; discriminate H.

Section Gate.

Context `{L : jwt.Library} `{P : Platform}.

(** [sendUnauthorized] on a writer that has not sent its status line yet. *)
Lemma sendUnauthorized_reply (c : OAuthConfig) (x : Exchange) :
  http.wrote (resp x) = None ->
  unauthorized_reply c (resp x) (resp (sendUnauthorized c x)).
Proof.
  intros Hw. unfold unauthorized_reply, sendUnauthorized, on_resp, http.Error,
    http.Write, http.WriteHeader, http.status, http.sent_header.
  cbn [resp http.wrote http.SetHeader http.DelHeader http.header http.body].
  rewrite Hw. cbn [http.wrote http.header http.body fmap option_fmap option_map fst].
  split; [reflexivity |]. split; [| reflexivity].
  rewrite Get_Set_ne by distinct_keys.
  rewrite Get_Set_ne by distinct_keys.
  rewrite Get_Del_ne by distinct_keys.
  apply Get_Set_eq.
Qed.

Lemma sendUnauthorized_req (c : OAuthConfig) (x : Exchange) :
  req (sendUnauthorized c x) = req x.
Proof. reflexivity. Qed.

(** The reply depends on the response writer alone. *)
Lemma sendUnauthorized_resp (c : OAuthConfig) (x y : Exchange) :
  resp x = resp y -> resp (sendUnauthorized c x) = resp (sendUnauthorized c y).
Proof.
  intros H. unfold sendUnauthorized, on_resp. cbn [resp]. now rewrite H.
Qed.

(** Every way the function literal returns is a [sendUnauthorized] on the
    request and writer it was given. *)
Lemma func_Return (c : OAuthConfig) (x x' : Exchange) :
  OAuthMiddleware_func c x = Return x' ->
  exists x0, x' = sendUnauthorized c x0 /\ req x0 = req x /\ resp x0 = resp x.
Proof.
  unfold OAuthMiddleware_func.
  repeat match goal with
         | |- context [if ?b then _ else _] => destruct b
         | |- context [match ?t with inl _ => _ | inr _ => _ end] => destruct t
         | |- context [match ?t with jwt.MapClaims _ => _ | jwt.OtherClaims => _ end] =>
             destruct t
         end;
    intros [= <-]; eexists; (split; [reflexivity |]); split; reflexivity.
Qed.

(** The call of [next] gets the request and the writer untouched. *)
Lemma func_ServeNext (c : OAuthConfig) (x x' : Exchange) :
  OAuthMiddleware_func c x = ServeNext x' -> req x' = req x /\ resp x' = resp x.
Proof.
  unfold OAuthMiddleware_func.
  repeat match goal with
         | |- context [if ?b then _ else _] => destruct b
         | |- context [match ?t with inl _ => _ | inr _ => _ end] => destruct t
         | |- context [match ?t with jwt.MapClaims _ => _ | jwt.OtherClaims => _ end] =>
             destruct t
         end;
    intros [= <-]; split; reflexivity.
Qed.

Lemma func_presented (c : OAuthConfig) (x : Exchange) (tokenString : string) :
  presents x tokenString ->
  OAuthMiddleware_func c x =
  match jwt.Parse tokenString (jwks c) [jwt.WithValidMethods ["RS256"]] with
  | inr err =>
      Return (sendUnauthorized c (log_Printf "Failed to parse token: %v" [ArgError err] x))
  | inl token =>
      if negb (jwt.Valid token) then
        Return (sendUnauthorized c (log_Printf "Invalid token" [] x))
      else
      match jwt.TokenClaims token with
      | jwt.OtherClaims =>
          Return (sendUnauthorized c (log_Printf "Invalid claims type" [] x))
      | jwt.MapClaims claims =>
          let x := debug_dump tokenString claims x in
          if negb (validateAudience c claims) then
            Return (sendUnauthorized c (log_Printf "Invalid audience" [] x))
          else if negb (validateIssuer c claims) then
            Return (sendUnauthorized c (log_Printf "Invalid issuer" [] x))
          else if negb (validateExpiration c (unix_now x) claims) then
            Return (sendUnauthorized c (log_Printf "Token expired" [] x))
          else if negb (validateScope c claims) then
            Return (sendUnauthorized c (log_Printf "Insufficient scope" [] x))
          else ServeNext x
      end
  end.
Proof.
  unfold presents. intros Hp. unfold OAuthMiddleware_func. rewrite Hp.
  rewrite TrimPrefix_present.
  change (String.eqb ("Bearer " +:+ tokenString) "") with false. cbv iota.
  destruct (String.eqb_spec tokenString ("Bearer " +:+ tokenString)) as [He | _];
    [exfalso; revert He; apply longer_differs | reflexivity].
Qed.

Lemma func_verified (c : OAuthConfig) (x : Exchange) (claims : gmap string any) :
  verified_claims c x claims ->
  exists tokenString, presents x tokenString /\
  ((policy_passes c (unix_now x) claims = true /\
    OAuthMiddleware_func c x = ServeNext (debug_dump tokenString claims x)) \/
   (policy_passes c (unix_now x) claims = false /\
    exists x0, OAuthMiddleware_func c x = Return (sendUnauthorized c x0) /\
               req x0 = req x /\ resp x0 = resp x)).
Proof.
  intros (tokenString & token & Hp & Hparse & Hvalid & Hclaims).
  exists tokenString. split; [exact Hp |].
  rewrite (func_presented c x tokenString Hp), Hparse, Hvalid, Hclaims.
  cbn [negb]. cbv zeta. unfold policy_passes.
  change (unix_now (debug_dump tokenString claims x)) with (unix_now x).
  destruct (validateAudience c claims); cbn [negb andb];
    [| right; split; [reflexivity | eexists; repeat split]].
  destruct (validateIssuer c claims); cbn [negb andb];
    [| right; split; [reflexivity | eexists; repeat split]].
  destruct (validateExpiration c (unix_now x) claims); cbn [negb andb];
    [| right; split; [reflexivity | eexists; repeat split]].
  destruct (validateScope c claims); cbn [negb andb];
    [| right; split; [reflexivity | eexists; repeat split]].
  left. split; reflexivity.
Qed.

Lemma rejects_of_Return (c : OAuthConfig) (x x' : Exchange) :
  http.wrote (resp x) = None -> OAuthMiddleware_func c x = Return x' -> rejects c x.
Proof.
  intros Hw Hr. destruct (func_Return c x x' Hr) as (x0 & -> & Hreq & Hresp).
  exists (sendUnauthorized c x0). split; [exact Hr |]. split; [exact Hreq |].
  rewrite <- Hresp. apply sendUnauthorized_reply. now rewrite Hresp.
Qed.

Lemma rejects_not_forwards (c : OAuthConfig) (x : Exchange) :
  rejects c x -> forwards c x -> False.
Proof. intros (x1 & H1 & _) (x2 & H2 & _). congruence. Qed.

(** With verified claims the outcome is the policy's verdict. *)
Lemma verified_forwards (c : OAuthConfig) (x : Exchange) (claims : gmap string any) :
  verified_claims c x claims ->
  (forwards c x <-> policy_passes c (unix_now x) claims = true).
Proof.
  intros Hv. destruct (func_verified c x claims Hv) as (tok & _ & [[Hp Hf] | [Hp (x0 & Hf & _)]]).
  - split; [intros _; exact Hp | intros _].
    exists (debug_dump tok claims x). split; [exact Hf | split; reflexivity].
  - split; [intros (x' & Hx' & _); congruence | congruence].
Qed.

Lemma verified_rejects (c : OAuthConfig) (x : Exchange) (claims : gmap string any) :
  http.wrote (resp x) = None -> verified_claims c x claims ->
  (rejects c x <-> policy_passes c (unix_now x) claims = false).
Proof.
  intros Hw Hv. destruct (func_verified c x claims Hv) as (tok & _ & [[Hp Hf] | [Hp (x0 & Hf & _)]]).
  - split; [intros (x' & Hx' & _); congruence | congruence].
  - split; [intros _; exact Hp | intros _]. eapply rejects_of_Return; eassumption.
Qed.

End Gate.

(** ** The claim policy *)

Section Policy.

Context `{L : jwt.Library} `{P : Platform}.

Lemma existsb_Str_In (url : string) (l : list any) :
  existsb (fun a => match a with
                    | Str audStr => String.eqb audStr url
                    | _ => false
                    end) l = true <-> In (Str url) l.
Proof.
  rewrite existsb_exists. split.
  - intros (a & Hin & Ha). destruct a; try discriminate.
    apply String.eqb_eq in Ha. now subst.
  - intros Hin. exists (Str url). split; [exact Hin | apply String.eqb_refl].
Qed.

Lemma validateAudience_iff (c : OAuthConfig) (claims : gmap string any) :
  validateAudience c claims = true <->
  audience_contains (claims !! "aud") (ResourceURL c).
Proof.
  unfold validateAudience, audience_contains.
  destruct (claims !! "aud") as [[| b | f | s | l | m] |].
  all: try (split; [discriminate | intros [[=] | (l' & [=] & _)]]).
  - rewrite String.eqb_eq. split.
    + intros ->. now left.
    + intros [[= ->] | (l' & [=] & _)]. reflexivity.
  - rewrite existsb_Str_In. split.
    + intros Hin. right. now exists l.
    + intros [[=] | (l' & [= <-] & Hin)]. exact Hin.
Qed.

Lemma validateScope_iff (c : OAuthConfig) (claims : gmap string any) :
  validateScope c claims = true <->
  exists scope tokens, claims !! "scope" = Some (Str scope) /\
                       scope_tokens scope tokens /\ In "mcp:tools" tokens.
Proof.
  unfold validateScope.
  destruct (claims !! "scope") as [[| b | f | s | l | m] |].
  all: try (split; [discriminate | intros (? & ? & [=] & _)]).
  rewrite existsb_eqb_In. split.
  - intros Hin. exists s, (strings.Split s " "). split; [reflexivity |].
    split; [| exact Hin]. split; [apply Split_nonempty |].
    split; [apply Split_spaceless | symmetry; apply Join_Split].
  - intros (scope & tokens & [= <-] & (Hne & Hall & ->) & Hin).
    now rewrite Split_Join.
Qed.

Lemma validateExpiration_skew (c : OAuthConfig) (now : Z) (claims : gmap string any)
    (exp : float64) :
  claims !! "exp" = Some (Float64 exp) ->
  float64_valid exp = true -> float64_finite exp = true ->
  in_int64 (Qtrunc (float64_val exp)) = true ->
  validateExpiration c now claims = true <-> now < Qtrunc (float64_val exp) + 60.
Proof.
  intros He Hv Hf Hin. unfold validateExpiration. rewrite He.
  rewrite int64_of_float64_skew by assumption. apply Z.ltb_lt.
Qed.

Lemma policy_passes_iff (c : OAuthConfig) (now : Z) (claims : gmap string any) :
  policy_passes c now claims = true <->
  validateAudience c claims = true /\ validateIssuer c claims = true /\
  validateExpiration c now claims = true /\ validateScope c claims = true.
Proof. unfold policy_passes. rewrite !andb_true_iff. tauto. Qed.

End Policy.

(** ** The claims of the specification *)

Section Claims.

Context `{L : jwt.Library} `{P : Platform}.

(** C1 (where the code departs from the claim). The claim asks that a token
    is let through while [current_time < exp + 60]. The middleware hands the
    token to [jwt.Parse] first and configures no leeway there, so that a
    token whose [exp] is not after the current time is refused by the parser
    and answered with 401 before [validateExpiration] and its 60 seconds are
    reached, also when [current_time < exp + 60] holds and the four checks
    of the middleware would let the claims through. *)
Theorem parser_expiry_defeats_skew_tolerance
    (payload : string -> option (gmap string any))
    (c : OAuthConfig) (x : Exchange) (tokenString : string)
    (claims : gmap string any) (exp : float64) :
  jwt.ValidatesExpiration L payload (unix_now x) ->
  http.wrote (resp x) = None ->
  presents x tokenString ->
  payload tokenString = Some claims ->
  claims !! "exp" = Some (Float64 exp) ->
  (float64_val exp <= inject_Z (unix_now x))%Q ->
  (exists err,
     jwt.Parse tokenString (jwks c) [jwt.WithValidMethods ["RS256"]] = inr err) /\
  rejects c x /\
  ~ forwards c x /\
  forall next, http.status (resp (OAuthMiddleware c next x)) = Some 401.
Proof.
  intros Hlib Hw Hp Hpay Hexp Hle.
  assert (Herr : exists err,
     jwt.Parse tokenString (jwks c) [jwt.WithValidMethods ["RS256"]] = inr err).
  { destruct (jwt.Parse tokenString (jwks c) [jwt.WithValidMethods ["RS256"]])
      as [token | err] eqn:Hparse; [| now exists err].
    destruct (Hlib _ _ _ _ Hparse) as (claims' & Hpay' & _ & Hafter).
    rewrite Hpay in Hpay'. injection Hpay' as <-.
    exfalso. apply (Qle_not_lt _ _ Hle). now apply Hafter. }
  destruct Herr as [err Herr].
  pose proof (func_presented c x tokenString Hp) as Hfunc. rewrite Herr in Hfunc.
  assert (Hrej : rejects c x) by (eapply rejects_of_Return; eassumption).
  split; [now exists err |]. split; [exact Hrej |].
  split; [intros Hf; exact (rejects_not_forwards c x Hrej Hf) |].
  intros next. destruct Hrej as (x' & Hx' & _ & Hstatus & _).
  unfold OAuthMiddleware. rewrite Hx'. exact Hstatus.
Qed.

(** C2. When [jwt.Parse] keeps to the allow-list it is given, a bearer token
    that declares any algorithm but RS256 (none and the symmetric ones
    included), or declares none that can be read, is refused by the parser
    and the gate answers 401, whatever claims the token carries. *)
Theorem token_of_other_algorithm_rejected
    (c : OAuthConfig) (x : Exchange) (tokenString : string) :
  jwt.EnforcesValidMethods L ->
  http.wrote (resp x) = None ->
  presents x tokenString ->
  jwt.DeclaredAlg tokenString <> Some "RS256" ->
  (exists err,
     jwt.Parse tokenString (jwks c) [jwt.WithValidMethods ["RS256"]] = inr err) /\
  rejects c x /\
  forall next, http.status (resp (OAuthMiddleware c next x)) = Some 401.
Proof.
  intros Hlib Hw Hp Halg.
  assert (Herr : exists err,
     jwt.Parse tokenString (jwks c) [jwt.WithValidMethods ["RS256"]] = inr err).
  { destruct (jwt.Parse tokenString (jwks c) [jwt.WithValidMethods ["RS256"]])
      as [token | err] eqn:Hparse; [| now exists err].
    destruct (Hlib _ _ _ _ ["RS256"] Hparse) as (alg & Hdecl & Hin); [now left |].
    destruct Hin as [<- | []]. contradiction. }
  destruct Herr as [err Herr].
  pose proof (func_presented c x tokenString Hp) as Hfunc. rewrite Herr in Hfunc.
  assert (Hrej : rejects c x) by (eapply rejects_of_Return; eassumption).
  split; [now exists err |]. split; [exact Hrej |].
  intros next. destruct Hrej as (x' & Hx' & _ & Hstatus & _).
  unfold OAuthMiddleware. rewrite Hx'. exact Hstatus.
Qed.

(** C3. For a verified claim set the audience check succeeds exactly when
    [aud], a single string or a collection, holds the configured resource URL
    as a string equal to it byte for byte; a claim set that fails it is
    answered with 401, and one that passes it and the other three checks is
    forwarded. *)
Theorem audience_check_is_exact_membership
    (c : OAuthConfig) (x : Exchange) (claims : gmap string any) :
  http.wrote (resp x) = None ->
  verified_claims c x claims ->
  (validateAudience c claims = true <->
   audience_contains (claims !! "aud") (ResourceURL c)) /\
  (forall l, claims !! "aud" = Some (Slice l) -> ~ In (Str (ResourceURL c)) l ->
             rejects c x) /\
  (forall l, claims !! "aud" = Some (Slice l) -> In (Str (ResourceURL c)) l ->
             validateIssuer c claims = true ->
             validateExpiration c (unix_now x) claims = true ->
             validateScope c claims = true ->
             forwards c x).
Proof.
  intros Hw Hv. split; [apply validateAudience_iff |]. split.
  - intros l Haud Hnot. apply (verified_rejects c x claims Hw Hv).
    apply not_true_iff_false. rewrite policy_passes_iff, validateAudience_iff.
    intros [[Hs | (l' & Hl' & Hin)] _]; rewrite Haud in *; [discriminate |].
    injection Hl' as <-. contradiction.
  - intros l Haud Hin Hiss Hexp Hscope. apply (verified_forwards c x claims Hv).
    rewrite policy_passes_iff, validateAudience_iff.
    repeat split; try assumption. right. now exists l.
Qed.

(** C4. For a verified claim set the scope check succeeds exactly when
    [scope] is a string whose space-delimited tokens include the literal
    mcp:tools, byte for byte; a claim set without [scope], or whose scope
    lacks that token, is answered with 401. *)
Theorem scope_check_is_token_membership
    (c : OAuthConfig) (x : Exchange) (claims : gmap string any) :
  http.wrote (resp x) = None ->
  verified_claims c x claims ->
  (validateScope c claims = true <->
   exists scope tokens, claims !! "scope" = Some (Str scope) /\
                        scope_tokens scope tokens /\ In "mcp:tools" tokens) /\
  (claims !! "scope" = None -> rejects c x) /\
  (forall scope, claims !! "scope" = Some (Str scope) ->
                 ~ In "mcp:tools" (strings.Split scope " ") -> rejects c x) /\
  (validateScope c claims = false -> rejects c x).
Proof.
  intros Hw Hv.
  assert (Hfail : validateScope c claims = false -> rejects c x).
  { intros Hs. apply (verified_rejects c x claims Hw Hv).
    apply not_true_iff_false. rewrite policy_passes_iff. intros (_ & _ & _ & Hs').
    congruence. }
  split; [apply validateScope_iff |]. split; [| split; [| exact Hfail]].
  - intros Hnone. apply Hfail. unfold validateScope. now rewrite Hnone.
  - intros scope Hs Hnot. apply Hfail. unfold validateScope. rewrite Hs.
    apply not_true_iff_false. now rewrite existsb_eqb_In.
Qed.

(** C5. A request without [Authorization] header, or whose header does not
    begin with the scheme prefix, is answered by [sendUnauthorized] at once:
    status 401, the [WWW-Authenticate] challenge that names the metadata URL
    of the resource, and the downstream handler plays no part. *)
Theorem missing_bearer_is_challenged (c : OAuthConfig) (x : Exchange) :
  http.wrote (resp x) = None ->
  http.Header (req x) !! "Authorization" = None \/
  strings.HasPrefix (textproto.Get (http.Header (req x)) "Authorization") "Bearer "
    = false ->
  OAuthMiddleware_func c x = Return (sendUnauthorized c x) /\
  (forall next, OAuthMiddleware c next x = sendUnauthorized c x) /\
  http.status (resp (sendUnauthorized c x)) = Some 401 /\
  http.sent_header (resp (sendUnauthorized c x)) "WWW-Authenticate" =
    "Bearer resource_metadata=" +:+ dquote +:+
    (ResourceURL c +:+ "/.well-known/oauth-protected-resource") +:+ dquote.
Proof.
  intros Hw Hhdr.
  assert (Hfunc : OAuthMiddleware_func c x = Return (sendUnauthorized c x)).
  { unfold OAuthMiddleware_func.
    destruct (String.eqb_spec (textproto.Get (http.Header (req x)) "Authorization") "")
      as [_ | Hne]; [reflexivity |].
    destruct Hhdr as [Habs | Hpre].
    - exfalso. apply Hne. now apply Get_absent.
    - rewrite (TrimPrefix_absent _ _ Hpre), String.eqb_refl. reflexivity. }
  split; [exact Hfunc |]. split.
  - intros next. unfold OAuthMiddleware. now rewrite Hfunc.
  - destruct (sendUnauthorized_reply c x Hw) as (Hstatus & Hchal & _).
    split; [exact Hstatus | exact Hchal].
Qed.

(** C6. Two requests that the gate answers itself, starting from the same
    unwritten response writer, get the same response whatever step failed:
    status 401, the same challenge, the same body. *)
Theorem rejections_are_indistinguishable
    (c : OAuthConfig) (x1 x2 x1' x2' : Exchange) :
  OAuthMiddleware_func c x1 = Return x1' ->
  OAuthMiddleware_func c x2 = Return x2' ->
  resp x1 = resp x2 ->
  http.wrote (resp x1) = None ->
  resp x1' = resp x2' /\
  http.status (resp x1') = Some 401 /\
  http.sent_header (resp x1') "WWW-Authenticate" = challenge c /\
  http.body (resp x1') =
    http.body (resp x1) ++ [http.Bytes ("Unauthorized" +:+ http.newline)].
Proof.
  intros H1 H2 Heq Hw.
  destruct (func_Return c x1 x1' H1) as (y1 & -> & _ & Hr1).
  destruct (func_Return c x2 x2' H2) as (y2 & -> & _ & Hr2).
  split; [apply sendUnauthorized_resp; congruence |].
  rewrite <- Hr1 in Hw |- *. exact (sendUnauthorized_reply c y1 Hw).
Qed.

(** C7 (as the code has it). The metadata handler tells OPTIONS from every
    other method, and does not tell the other methods apart. On an unwritten
    response writer, OPTIONS gets status 200, the three CORS headers and no
    body; every other method, GET among them, gets status 200, the JSON
    content type, the CORS headers with any origin allowed, and as body the
    document with the configured resource URL, the configured authorization
    server URL and the scope mcp:tools. *)
Theorem metadata_endpoint_behaviour (c : OAuthConfig) (x : Exchange) :
  http.wrote (resp x) = None ->
  let w' := resp (HandleProtectedResourceMetadata c x) in
  http.status w' = Some 200 /\
  http.sent_header w' "Access-Control-Allow-Origin" = "*" /\
  http.sent_header w' "Access-Control-Allow-Methods" = "GET, OPTIONS" /\
  http.sent_header w' "Access-Control-Allow-Headers" = "Content-Type" /\
  (http.Method (req x) = "OPTIONS" -> http.body w' = http.body (resp x)) /\
  (http.Method (req x) <> "OPTIONS" ->
   http.sent_header w' "Content-Type" = "application/json" /\
   http.body w' = http.body (resp x) ++
     [http.Encoded {| oauthex.Resource := ResourceURL c;
                      oauthex.AuthorizationServers := [AuthzServerURL c];
                      oauthex.ScopesSupported := ["mcp:tools"] |}]).
Proof.
  intros Hw. unfold HandleProtectedResourceMetadata, on_resp. cbn [req resp].
  destruct (String.eqb_spec (http.Method (req x)) "OPTIONS") as [Hm | Hm];
    unfold http.Write, http.WriteHeader, http.status, http.sent_header;
    cbn [resp http.wrote http.SetHeader http.header http.body]; rewrite Hw;
    cbn [http.wrote http.header http.body fmap option_fmap option_map fst].
  - repeat split.
    + rewrite !Get_Set_ne by distinct_keys. apply Get_Set_eq.
    + rewrite Get_Set_ne by distinct_keys. apply Get_Set_eq.
    + apply Get_Set_eq.
    + contradiction.
    + contradiction.
  - repeat split.
    + rewrite !Get_Set_ne by distinct_keys. apply Get_Set_eq.
    + rewrite !Get_Set_ne by distinct_keys. apply Get_Set_eq.
    + rewrite Get_Set_ne by distinct_keys. apply Get_Set_eq.
    + contradiction.
    + apply Get_Set_eq.
Qed.

(** C8. A claim that is missing or has the wrong type makes its check answer
    no: [iss] that is no string, [exp] that is no number, [aud] that is
    neither string nor collection, [scope] that is no string. With verified
    claims a failed check is answered with 401. The gate always either
    forwards or answers 401 itself, so that no request gets a 5xx from it. *)
Theorem malformed_claims_fail_closed (c : OAuthConfig) (x : Exchange) :
  http.wrote (resp x) = None ->
  (forall claims now,
     (is_Str (claims !! "iss") = false -> validateIssuer c claims = false) /\
     (is_Float64 (claims !! "exp") = false -> validateExpiration c now claims = false) /\
     (is_Str (claims !! "aud") = false -> is_Slice (claims !! "aud") = false ->
      validateAudience c claims = false) /\
     (is_Str (claims !! "scope") = false -> validateScope c claims = false)) /\
  (forall claims,
     verified_claims c x claims ->
     validateAudience c claims = false \/ validateIssuer c claims = false \/
     validateExpiration c (unix_now x) claims = false \/
     validateScope c claims = false ->
     rejects c x) /\
  (rejects c x \/ forwards c x) /\
  (forall x', OAuthMiddleware_func c x = Return x' ->
              http.status (resp x') = Some 401 /\ ~ (500 <= 401)).
Proof.
  intros Hw. split; [| split; [| split]].
  - intros claims now. repeat split.
    + unfold validateIssuer. now destruct (claims !! "iss") as [[] |].
    + unfold validateExpiration. now destruct (claims !! "exp") as [[] |].
    + unfold validateAudience. now destruct (claims !! "aud") as [[] |].
    + unfold validateScope. now destruct (claims !! "scope") as [[] |].
  - intros claims Hv Hfail. apply (verified_rejects c x claims Hw Hv).
    apply not_true_iff_false. rewrite policy_passes_iff.
    intros (Ha & Hi & He & Hs). destruct Hfail as [H | [H | [H | H]]]; congruence.
  - destruct (OAuthMiddleware_func c x) as [x' | x'] eqn:Hf.
    + left. eapply rejects_of_Return; eassumption.
    + right. exists x'. split; [exact Hf | now apply func_ServeNext with (c := c)].
  - intros x' Hf. split; [| lia].
    destruct (rejects_of_Return c x x' Hw Hf) as (x'' & Hf' & _ & Hstatus & _).
    congruence.
Qed.

(** C9. When the token is verified and all four checks pass, the last action
    of the gate is the call of the downstream handler, with the request and
    the response writer exactly as the gate received them; only the debug
    lines were added to the process log. What the middleware yields is what
    the downstream handler yields. *)
Theorem success_forwards_request_unchanged
    (c : OAuthConfig) (x : Exchange) (claims : gmap string any) :
  verified_claims c x claims ->
  policy_passes c (unix_now x) claims = true ->
  exists tokenString x',
    x' = debug_dump tokenString claims x /\
    OAuthMiddleware_func c x = ServeNext x' /\
    req x' = req x /\ resp x' = resp x /\ unix_now x' = unix_now x /\
    forall next, OAuthMiddleware c next x = next x'.
Proof.
  intros Hv Hpass.
  destruct (func_verified c x claims Hv) as (tok & _ & [[_ Hf] | [Hp _]]);
    [| congruence].
  exists tok, (debug_dump tok claims x). repeat split; try reflexivity; try exact Hf.
  intros next. unfold OAuthMiddleware. now rewrite Hf.
Qed.

(** C10. When [aud] is a collection, the audience check looks at its string
    elements only: it passes exactly when some element is the string equal
    to the resource URL, whatever the other elements are, and it fails on a
    collection without string elements. *)
Theorem audience_collection_skips_non_strings
    (c : OAuthConfig) (claims : gmap string any) (l : list any) :
  claims !! "aud" = Some (Slice l) ->
  (validateAudience c claims = true <-> In (Str (ResourceURL c)) l) /\
  (forall before after, l = before ++ Str (ResourceURL c) :: after ->
                        validateAudience c claims = true) /\
  ((forall a, In a l -> is_Str (Some a) = false) ->
   validateAudience c claims = false).
Proof.
  intros Haud.
  assert (Hiff : validateAudience c claims = true <-> In (Str (ResourceURL c)) l).
  { unfold validateAudience. rewrite Haud. apply existsb_Str_In. }
  split; [exact Hiff |]. split.
  - intros before after ->. apply Hiff, in_elt.
  - intros Hnone. apply not_true_iff_false. rewrite Hiff. intros Hin.
    specialize (Hnone _ Hin). discriminate.
Qed.

End Claims.

(** ** The test double at work *)

Lemma sample_presents (method tokenString : string) (now : Z) :
  presents (sample_exchange method (Some ("Bearer " +:+ tokenString)) now) tokenString.
Proof.
  unfold presents, sample_exchange, sample_request, textproto.Get. cbn [req http.Header].
  change (textproto.CanonicalMIMEHeaderKey "Authorization") with "Authorization".
  now rewrite lookup_singleton_eq.
Qed.

(** The double keeps to the allow-list. *)
Lemma sample_library_enforces : jwt.EnforcesValidMethods sample_library.
Proof.
  intros tokenString keyFunc opts token methods Hparse Hin.
  cbn [jwt.Parse jwt.DeclaredAlg sample_library] in *. unfold sample_Parse in Hparse.
  destruct (assoc tokenString sample_tokens) as [[alg claims] |]; [| discriminate].
  destruct (method_allowed alg opts) eqn:Hok; [| discriminate].
  destruct (claims_valid_at sample_clock claims); [| discriminate].
  exists alg. split; [reflexivity |].
  unfold method_allowed in Hok. rewrite forallb_forall in Hok.
  specialize (Hok _ Hin). cbn beta iota in Hok.
  apply existsb_exists in Hok as (m & Hm & Heq).
  apply String.eqb_eq in Heq. now subst.
Qed.

(** The double validates the expiry at its clock. *)
Lemma sample_library_validates_expiration :
  jwt.ValidatesExpiration sample_library sample_payload sample_clock.
Proof.
  intros tokenString keyFunc opts token Hparse.
  cbn [jwt.Parse sample_library] in Hparse. unfold sample_Parse in Hparse.
  unfold sample_payload.
  destruct (assoc tokenString sample_tokens) as [[alg claims] |]; [| discriminate].
  destruct (method_allowed alg opts); [| discriminate].
  destruct (claims_valid_at sample_clock claims) eqn:Hvalid; [| discriminate].
  injection Hparse as <-. exists claims. split; [reflexivity |]. split; [reflexivity |].
  intros exp Hexp. unfold claims_valid_at in Hvalid. rewrite Hexp in Hvalid.
  apply negb_true_iff in Hvalid. apply Qnot_le_lt. intros Hle.
  apply Qle_bool_iff in Hle. congruence.
Qed.

(** A token of the table that declares RS256 and has not expired at the
    clock of the double is verified with its claims. *)
Lemma sample_verified (method tokenString : string) (now : Z)
    (claims : gmap string any) :
  assoc tokenString sample_tokens = Some ("RS256", claims) ->
  claims_valid_at sample_clock claims = true ->
  @verified_claims sample_library sample_config
    (sample_exchange method (Some ("Bearer " +:+ tokenString)) now) claims.
Proof.
  intros Hin Hvalid.
  exists tokenString,
    {| jwt.Raw := tokenString; jwt.Alg := "RS256";
       jwt.TokenClaims := jwt.MapClaims claims; jwt.Valid := true |}.
  split; [apply sample_presents |]. split; [| split; reflexivity].
  cbn [jwt.Parse sample_library]. unfold sample_Parse. rewrite Hin.
  cbn [method_allowed forallb existsb]. rewrite String.eqb_refl. cbn [orb andb].
  now rewrite Hvalid.
Qed.

(** Witness of C1: the token [recent] expired at 1030 and is presented at
    1060, within the 60 seconds; the four checks of the middleware pass on
    its claims, and the gate answers 401. *)
Lemma parser_expiry_defeats_skew_tolerance_witness :
  let x := sample_exchange "POST" (Some "Bearer recent") 1060 in
  let claims := claims_of "recent" in
  let exp := binary64 1030 0 in
  (float64_val exp == inject_Z 1030)%Q /\
  (inject_Z (unix_now x) < float64_val exp + 60)%Q /\
  @policy_passes sample_library amd64 sample_config (unix_now x) claims = true /\
  ((exists err,
      @jwt.Parse sample_library "recent" (jwks sample_config)
        [jwt.WithValidMethods ["RS256"]] = inr err) /\
   @rejects sample_library amd64 sample_config x /\
   ~ @forwards sample_library amd64 sample_config x /\
   forall next,
     http.status (resp (@OAuthMiddleware sample_library amd64 sample_config next x))
     = Some 401).
Proof.
  cbv zeta. split; [vm_compute; reflexivity |]. split; [vm_compute; reflexivity |].
  split; [vm_compute; reflexivity |].
  apply (@parser_expiry_defeats_skew_tolerance sample_library amd64 sample_payload
           sample_config (sample_exchange "POST" (Some "Bearer recent") 1060)
           "recent" (claims_of "recent") (binary64 1030 0)).
  - exact sample_library_validates_expiration.
  - reflexivity.
  - apply sample_presents.
  - vm_compute. reflexivity.
  - vm_compute. reflexivity.
  - vm_compute. discriminate.
Defined.

(** Witness of C2: the token [unsigned] declares the algorithm none. *)
Lemma token_of_other_algorithm_rejected_witness :
  let x := sample_exchange "POST" (Some "Bearer unsigned") 1060 in
  (exists err,
     @jwt.Parse sample_library "unsigned" (jwks sample_config)
       [jwt.WithValidMethods ["RS256"]] = inr err) /\
  @rejects sample_library amd64 sample_config x /\
  forall next,
    http.status (resp (@OAuthMiddleware sample_library amd64 sample_config next x))
    = Some 401.
Proof.
  apply (@token_of_other_algorithm_rejected sample_library amd64 sample_config
           (sample_exchange "POST" (Some "Bearer unsigned") 1060) "unsigned").
  - exact sample_library_enforces.
  - reflexivity.
  - apply sample_presents.
  - vm_compute. discriminate.
Defined.

(** Witness of C3: the audience of [good] is a collection with the URL. *)
Lemma audience_check_is_exact_membership_witness :
  let x := sample_exchange "POST" (Some "Bearer good") 1060 in
  let claims := claims_of "good" in
  (validateAudience sample_config claims = true <->
   audience_contains (claims !! "aud") (ResourceURL sample_config)) /\
  (forall l, claims !! "aud" = Some (Slice l) ->
             ~ In (Str (ResourceURL sample_config)) l ->
             @rejects sample_library amd64 sample_config x) /\
  (forall l, claims !! "aud" = Some (Slice l) ->
             In (Str (ResourceURL sample_config)) l ->
             validateIssuer sample_config claims = true ->
             @validateExpiration sample_library amd64 sample_config (unix_now x) claims
               = true ->
             validateScope sample_config claims = true ->
             @forwards sample_library amd64 sample_config x).
Proof.
  apply (@audience_check_is_exact_membership sample_library amd64 sample_config
           (sample_exchange "POST" (Some "Bearer good") 1060) (claims_of "good")).
  - reflexivity.
  - apply (sample_verified "POST" "good" 1060); vm_compute; reflexivity.
Defined.

(** Witness of C4: the scope of [good] is the string mcp:tools read. *)
Lemma scope_check_is_token_membership_witness :
  let x := sample_exchange "POST" (Some "Bearer good") 1060 in
  let claims := claims_of "good" in
  (validateScope sample_config claims = true <->
   exists scope tokens, claims !! "scope" = Some (Str scope) /\
                        scope_tokens scope tokens /\ In "mcp:tools" tokens) /\
  (claims !! "scope" = None -> @rejects sample_library amd64 sample_config x) /\
  (forall scope, claims !! "scope" = Some (Str scope) ->
                 ~ In "mcp:tools" (strings.Split scope " ") ->
                 @rejects sample_library amd64 sample_config x) /\
  (validateScope sample_config claims = false ->
   @rejects sample_library amd64 sample_config x).
Proof.
  apply (@scope_check_is_token_membership sample_library amd64 sample_config
           (sample_exchange "POST" (Some "Bearer good") 1060) (claims_of "good")).
  - reflexivity.
  - apply (sample_verified "POST" "good" 1060); vm_compute; reflexivity.
Defined.

(** Witness of C5: a request with the Basic scheme. *)
Lemma missing_bearer_is_challenged_witness :
  let x := sample_exchange "POST" (Some "Basic dXNlcjpwYXNz") 1060 in
  @OAuthMiddleware_func sample_library amd64 sample_config x
    = Return (sendUnauthorized sample_config x) /\
  (forall next, @OAuthMiddleware sample_library amd64 sample_config next x
                = sendUnauthorized sample_config x) /\
  http.status (resp (sendUnauthorized sample_config x)) = Some 401 /\
  http.sent_header (resp (sendUnauthorized sample_config x)) "WWW-Authenticate" =
    "Bearer resource_metadata=" +:+ dquote +:+
    (ResourceURL sample_config +:+ "/.well-known/oauth-protected-resource") +:+ dquote.
Proof.
  apply (@missing_bearer_is_challenged sample_library amd64 sample_config
           (sample_exchange "POST" (Some "Basic dXNlcjpwYXNz") 1060)).
  - reflexivity.
  - right. vm_compute. reflexivity.
Defined.

(** Witness of C6: a request without header and one with a wrong audience. *)
Lemma rejections_are_indistinguishable_witness :
  let x1 := sample_exchange "POST" None 1060 in
  let x2 := sample_exchange "GET" (Some "Bearer other-aud") 1060 in
  let x1' := sendUnauthorized sample_config x1 in
  let x2' := sendUnauthorized sample_config
               (log_Printf "Invalid audience" []
                  (debug_dump "other-aud" (claims_of "other-aud") x2)) in
  resp x1' = resp x2' /\
  http.status (resp x1') = Some 401 /\
  http.sent_header (resp x1') "WWW-Authenticate" = challenge sample_config /\
  http.body (resp x1') =
    http.body (resp x1) ++ [http.Bytes ("Unauthorized" +:+ http.newline)].
Proof.
  apply (@rejections_are_indistinguishable sample_library amd64 sample_config
           (sample_exchange "POST" None 1060)
           (sample_exchange "GET" (Some "Bearer other-aud") 1060)).
  - vm_compute. reflexivity.
  - vm_compute. reflexivity.
  - reflexivity.
  - reflexivity.
Defined.

(** Witness of C7: a GET request for the metadata. *)
Lemma metadata_endpoint_behaviour_witness :
  let x := sample_exchange "GET" None 1060 in
  let w' := resp (@HandleProtectedResourceMetadata sample_library sample_config x) in
  http.status w' = Some 200 /\
  http.sent_header w' "Access-Control-Allow-Origin" = "*" /\
  http.sent_header w' "Access-Control-Allow-Methods" = "GET, OPTIONS" /\
  http.sent_header w' "Access-Control-Allow-Headers" = "Content-Type" /\
  (http.Method (req x) = "OPTIONS" -> http.body w' = http.body (resp x)) /\
  (http.Method (req x) <> "OPTIONS" ->
   http.sent_header w' "Content-Type" = "application/json" /\
   http.body w' = http.body (resp x) ++
     [http.Encoded {| oauthex.Resource := "http://res.example";
                      oauthex.AuthorizationServers := ["http://auth.example"];
                      oauthex.ScopesSupported := ["mcp:tools"] |}]).
Proof.
  apply (@metadata_endpoint_behaviour sample_library sample_config
           (sample_exchange "GET" None 1060)).
  reflexivity.
Defined.

(** Counterexample to C7 as stated: a POST request, which is neither GET nor
    OPTIONS, is answered like a GET request, with status 200 and the
    metadata document. *)
Lemma metadata_endpoint_answers_POST :
  let post := sample_exchange "POST" None 1060 in
  let get := sample_exchange "GET" None 1060 in
  let w' := resp (@HandleProtectedResourceMetadata sample_library sample_config post) in
  http.Method (req post) <> "GET" /\
  http.Method (req post) <> "OPTIONS" /\
  http.status w' = Some 200 /\
  http.sent_header w' "Content-Type" = "application/json" /\
  http.body w' =
    [http.Encoded {| oauthex.Resource := "http://res.example";
                     oauthex.AuthorizationServers := ["http://auth.example"];
                     oauthex.ScopesSupported := ["mcp:tools"] |}] /\
  w' = resp (@HandleProtectedResourceMetadata sample_library sample_config get).
Proof.
  cbv zeta. split; [discriminate |]. split; [discriminate |].
  repeat split; vm_compute; reflexivity.
Qed.

(** Witness of C8: the token [text-exp] carries its expiry as a string. *)
Lemma malformed_claims_fail_closed_witness :
  let x := sample_exchange "POST" (Some "Bearer text-exp") 1060 in
  (forall claims now,
     (is_Str (claims !! "iss") = false -> validateIssuer sample_config claims = false) /\
     (is_Float64 (claims !! "exp") = false ->
      @validateExpiration sample_library amd64 sample_config now claims = false) /\
     (is_Str (claims !! "aud") = false -> is_Slice (claims !! "aud") = false ->
      validateAudience sample_config claims = false) /\
     (is_Str (claims !! "scope") = false -> validateScope sample_config claims = false)) /\
  (forall claims,
     @verified_claims sample_library sample_config x claims ->
     validateAudience sample_config claims = false \/
     validateIssuer sample_config claims = false \/
     @validateExpiration sample_library amd64 sample_config (unix_now x) claims = false \/
     validateScope sample_config claims = false ->
     @rejects sample_library amd64 sample_config x) /\
  (@rejects sample_library amd64 sample_config x \/
   @forwards sample_library amd64 sample_config x) /\
  (forall x', @OAuthMiddleware_func sample_library amd64 sample_config x = Return x' ->
              http.status (resp x') = Some 401 /\ ~ (500 <= 401)).
Proof.
  apply (@malformed_claims_fail_closed sample_library amd64 sample_config
           (sample_exchange "POST" (Some "Bearer text-exp") 1060)).
  reflexivity.
Defined.

(** Witness of C9: the token [good], presented at 1060. *)
Lemma success_forwards_request_unchanged_witness :
  let x := sample_exchange "POST" (Some "Bearer good") 1060 in
  exists tokenString x',
    x' = debug_dump tokenString (claims_of "good") x /\
    @OAuthMiddleware_func sample_library amd64 sample_config x = ServeNext x' /\
    req x' = req x /\ resp x' = resp x /\ unix_now x' = unix_now x /\
    forall next, @OAuthMiddleware sample_library amd64 sample_config next x = next x'.
Proof.
  apply (@success_forwards_request_unchanged sample_library amd64 sample_config
           (sample_exchange "POST" (Some "Bearer good") 1060) (claims_of "good")).
  - apply (sample_verified "POST" "good" 1060); vm_compute; reflexivity.
  - vm_compute. reflexivity.
Defined.

(** Witness of C10: the audience of [mixed-aud] holds a number, an object
    and the resource URL. *)
Lemma audience_collection_skips_non_strings_witness :
  let claims := claims_of "mixed-aud" in
  let l := [Float64 (binary64 7 0); Object []; Str "http://res.example"] in
  (validateAudience sample_config claims = true <->
   In (Str (ResourceURL sample_config)) l) /\
  (forall before after, l = before ++ Str (ResourceURL sample_config) :: after ->
                        validateAudience sample_config claims = true) /\
  ((forall a, In a l -> is_Str (Some a) = false) ->
   validateAudience sample_config claims = false).
Proof.
  apply (@audience_collection_skips_non_strings sample_library sample_config
           (claims_of "mixed-aud")).
  vm_compute. reflexivity.
Defined.

(** * Further properties of the code *)

Lemma TrimPrefix_changed (s prefix : string) :
  strings.TrimPrefix s prefix <> s -> s = prefix +:+ strings.TrimPrefix s prefix.
Proof.
  unfold strings.TrimPrefix.
  destruct (strings.CutPrefix s prefix) as [rest |] eqn:E; [| contradiction].
  intros _. now apply CutPrefix_Some.
Qed.

Lemma presents_unique (x : Exchange) (t1 t2 : string) :
  presents x t1 -> presents x t2 -> t1 = t2.
Proof.
  unfold presents. intros H1 H2. rewrite H1 in H2. cbn in H2. now injection H2.
Qed.

Section Gate_more.

Context `{L : jwt.Library} `{P : Platform}.

(** X1. The downstream handler is only ever called for a request that
    presents a bearer token which [jwt.Parse] accepts under the RS256
    allow-list as a valid token with map claims, and whose claims pass all
    four checks; the exchange handed on is the one received plus the debug
    lines. *)
Theorem forwarding_requires_accepted_token (c : OAuthConfig) (x x' : Exchange) :
  OAuthMiddleware_func c x = ServeNext x' ->
  exists tokenString token claims,
    presents x tokenString /\
    jwt.Parse tokenString (jwks c) [jwt.WithValidMethods ["RS256"]] = inl token /\
    jwt.Valid token = true /\
    jwt.TokenClaims token = jwt.MapClaims claims /\
    policy_passes c (unix_now x) claims = true /\
    x' = debug_dump tokenString claims x.
Proof.
  intros Hf.
  assert (Hp : presents x (strings.TrimPrefix
                 (textproto.Get (http.Header (req x)) "Authorization") "Bearer ")).
  { unfold OAuthMiddleware_func in Hf.
    destruct (String.eqb (textproto.Get (http.Header (req x)) "Authorization") "");
      [discriminate |].
    destruct (String.eqb_spec
                (strings.TrimPrefix
                   (textproto.Get (http.Header (req x)) "Authorization") "Bearer ")
                (textproto.Get (http.Header (req x)) "Authorization")) as [_ | Hne];
      [discriminate |].
    now apply TrimPrefix_changed. }
  set (tok := strings.TrimPrefix _ _) in Hp.
  rewrite (func_presented c x tok Hp) in Hf.
  destruct (jwt.Parse tok (jwks c) [jwt.WithValidMethods ["RS256"]])
    as [token | err] eqn:Hparse; [| discriminate].
  destruct (jwt.Valid token) eqn:Hvalid; cbn [negb] in Hf; [| discriminate].
  destruct (jwt.TokenClaims token) as [claims |] eqn:Hclaims; [| discriminate].
  cbv zeta in Hf. change (unix_now (debug_dump tok claims x)) with (unix_now x) in Hf.
  exists tok, token, claims. unfold policy_passes.
  destruct (validateAudience c claims); cbn [negb] in Hf; [| discriminate].
  destruct (validateIssuer c claims); cbn [negb] in Hf; [| discriminate].
  destruct (validateExpiration c (unix_now x) claims); cbn [negb] in Hf; [| discriminate].
  destruct (validateScope c claims); cbn [negb] in Hf; [| discriminate].
  injection Hf as <-. repeat split; assumption || reflexivity.
Qed.

(** X2. The issuer check passes exactly when [iss] is the string equal, byte
    for byte, to the configured authorization server URL; a verified claim
    set with any other issuer is answered with 401. *)
Theorem issuer_check_is_exact_equality
    (c : OAuthConfig) (x : Exchange) (claims : gmap string any) :
  http.wrote (resp x) = None ->
  verified_claims c x claims ->
  (validateIssuer c claims = true <-> claims !! "iss" = Some (Str (AuthzServerURL c))) /\
  (claims !! "iss" <> Some (Str (AuthzServerURL c)) -> rejects c x) /\
  (forall suffix, claims !! "iss" = Some (Str (AuthzServerURL c +:+ suffix)) ->
                  suffix <> EmptyString -> rejects c x).
Proof.
  intros Hw Hv.
  assert (Hiff : validateIssuer c claims = true <->
                 claims !! "iss" = Some (Str (AuthzServerURL c))).
  { unfold validateIssuer. destruct (claims !! "iss") as [[| b | f | s | l | m] |];
      try (split; [discriminate | intros [=]]).
    rewrite String.eqb_eq. split; [intros -> | intros [= ->]]; reflexivity. }
  assert (Hrej : claims !! "iss" <> Some (Str (AuthzServerURL c)) -> rejects c x).
  { intros Hne. apply (verified_rejects c x claims Hw Hv).
    apply not_true_iff_false. rewrite policy_passes_iff, Hiff. tauto. }
  split; [exact Hiff |]. split; [exact Hrej |].
  intros suffix Hiss Hne. apply Hrej. rewrite Hiss. intros [= Heq].
  apply Hne. apply (f_equal String.length) in Heq.
  rewrite length_app_string in Heq. destruct suffix; [reflexivity | simpl in Heq; lia].
Qed.

(** X3. The expiry check is monotone in time, on every platform and for
    every value of [exp]: a claim set that passes at some time passes at
    every earlier time, and one that fails keeps failing later. *)
Theorem expiry_check_is_monotone
    (c : OAuthConfig) (claims : gmap string any) (now later : Z) :
  now <= later ->
  (validateExpiration c later claims = true -> validateExpiration c now claims = true) /\
  (validateExpiration c now claims = false -> validateExpiration c later claims = false).
Proof.
  intros Hle. unfold validateExpiration.
  destruct (claims !! "exp") as [[| b | f | s | l | m] |]; try (split; congruence).
  split.
  - rewrite !Z.ltb_lt. lia.
  - rewrite !Z.ltb_ge. lia.
Qed.

(** X4. The policy reads the four claims [aud], [iss], [exp] and [scope]
    and nothing else: claim sets that agree on these four get the same
    verdict, so that adding, changing or removing any other claim (such as
    [sub] or [nbf]) makes no difference. *)
Theorem policy_reads_four_claims_only
    (c : OAuthConfig) (now : Z) (claims : gmap string any) :
  (forall claims',
     claims' !! "aud" = claims !! "aud" -> claims' !! "iss" = claims !! "iss" ->
     claims' !! "exp" = claims !! "exp" -> claims' !! "scope" = claims !! "scope" ->
     policy_passes c now claims' = policy_passes c now claims) /\
  (forall key value,
     key <> "aud" -> key <> "iss" -> key <> "exp" -> key <> "scope" ->
     policy_passes c now (<[key := value]> claims) = policy_passes c now claims /\
     policy_passes c now (delete key claims) = policy_passes c now claims).
Proof.
  assert (Hagree : forall claims',
     claims' !! "aud" = claims !! "aud" -> claims' !! "iss" = claims !! "iss" ->
     claims' !! "exp" = claims !! "exp" -> claims' !! "scope" = claims !! "scope" ->
     policy_passes c now claims' = policy_passes c now claims).
  { intros claims' Ha Hi He Hs.
    unfold policy_passes, validateAudience, validateIssuer, validateExpiration,
      validateScope. now rewrite Ha, Hi, He, Hs. }
  split; [exact Hagree |].
  intros key value Ha Hi He Hs. split; apply Hagree.
  all: first [now apply lookup_insert_ne | now apply lookup_delete_ne].
Qed.

(** X5. Of the request the gate reads the [Authorization] header and nothing
    else: two requests with the same header value, handled at the same clock
    reading, are both forwarded or both answered by the gate, whatever
    their methods, paths, bodies and other headers. *)
Theorem gate_reads_authorization_header_only (c : OAuthConfig) (x y : Exchange) :
  textproto.Get (http.Header (req x)) "Authorization" =
    textproto.Get (http.Header (req y)) "Authorization" ->
  unix_now x = unix_now y ->
  (forwards c x <-> forwards c y) /\
  ((exists x', OAuthMiddleware_func c x = Return x') <->
   (exists y', OAuthMiddleware_func c y = Return y')).
Proof.
  assert (Hone : forall a b : Exchange,
            textproto.Get (http.Header (req a)) "Authorization" =
              textproto.Get (http.Header (req b)) "Authorization" ->
            unix_now a = unix_now b -> forwards c a -> forwards c b).
  { intros a b Hh Hn (a' & Ha & _).
    destruct (forwarding_requires_accepted_token c a a' Ha)
      as (tok & token & claims & Hp & Hparse & Hvalid & Hclaims & Hpass & _).
    apply (verified_forwards c b claims).
    - exists tok, token. unfold presents in *. rewrite <- Hh. auto.
    - now rewrite <- Hn. }
  assert (Htotal : forall a : Exchange,
            (exists a', OAuthMiddleware_func c a = Return a') <-> ~ forwards c a).
  { intros a. destruct (OAuthMiddleware_func c a) as [a' | a'] eqn:Ha.
    - split; [intros _ (a'' & Ha'' & _); congruence | intros _; now exists a'].
    - split; [intros (a'' & [=]) |].
      intros Hn. exfalso. apply Hn. exists a'. split; [exact Ha |].
      exact (func_ServeNext c a a' Ha). }
  intros Hh Hn.
  assert (Hfwd : forwards c x <-> forwards c y)
    by (split; apply Hone; congruence).
  split; [exact Hfwd |]. rewrite !Htotal. now rewrite Hfwd.
Qed.

End Gate_more.

Section Logging.

Context `{L : jwt.Library} `{P : Platform}.

Lemma sendUnauthorized_logs (c : OAuthConfig) (x : Exchange) :
  logs (sendUnauthorized c x) = logs x /\ unix_now (sendUnauthorized c x) = unix_now x.
Proof. split; reflexivity. Qed.

(** X6. Whatever the outcome, the gate leaves the request as it is and only
    appends to the process log. It logs nothing for a request without a
    bearer token; once the token is verified, the raw token and the claim
    set are among the lines it appends, also when the request is then
    answered with 401. *)
Theorem gate_log_is_append_only (c : OAuthConfig) (x : Exchange) :
  let x' := outcome_exchange (OAuthMiddleware_func c x) in
  req x' = req x /\ unix_now x' = unix_now x /\
  exists added,
    logs x' = logs x ++ added /\
    (strings.HasPrefix (textproto.Get (http.Header (req x)) "Authorization") "Bearer "
       = false -> added = []) /\
    (forall tokenString claims,
       presents x tokenString -> verified_claims c x claims ->
       In (Printf "Raw Token: %s" [ArgString tokenString]) added /\
       In (Printf "Claims: %s" [ArgClaimsJSON claims]) added).
Proof.
  cbv zeta.
  destruct (String.eqb_spec (textproto.Get (http.Header (req x)) "Authorization") "")
    as [Hempty | Hne].
  { unfold OAuthMiddleware_func. rewrite Hempty. cbn [String.eqb outcome_exchange].
    split; [reflexivity |]. split; [reflexivity |]. exists []. rewrite app_nil_r.
    split; [reflexivity |]. split; [reflexivity |].
    intros tok claims Hp _. unfold presents in Hp. rewrite Hempty in Hp. discriminate. }
  destruct (strings.HasPrefix (textproto.Get (http.Header (req x)) "Authorization")
              "Bearer ") eqn:Hpre.
  2:{ unfold OAuthMiddleware_func. apply String.eqb_neq in Hne. rewrite Hne.
      rewrite (TrimPrefix_absent _ _ Hpre), String.eqb_refl. cbn [outcome_exchange].
      split; [reflexivity |]. split; [reflexivity |]. exists []. rewrite app_nil_r.
      split; [reflexivity |]. split; [reflexivity |].
      intros tok claims Hp _. unfold presents in Hp.
      rewrite Hp in Hpre. discriminate. }
  assert (Hp : exists tok, presents x tok).
  { unfold strings.HasPrefix in Hpre.
    destruct (strings.CutPrefix _ "Bearer ") as [rest |] eqn:Hc; [| discriminate].
    exists rest. now apply CutPrefix_Some. }
  destruct Hp as [tok Hp]. rewrite (func_presented c x tok Hp).
  assert (Hver : forall t cl, presents x t -> verified_claims c x cl ->
            exists token, t = tok /\
              jwt.Parse tok (jwks c) [jwt.WithValidMethods ["RS256"]] = inl token /\
              jwt.Valid token = true /\ jwt.TokenClaims token = jwt.MapClaims cl).
  { intros t cl Ht (t' & token & Ht' & Hparse & Hvalid & Hcl).
    rewrite (presents_unique x t' tok Ht' Hp) in Hparse.
    exists token. split; [exact (presents_unique x t tok Ht Hp) | auto]. }
  destruct (jwt.Parse tok (jwks c) [jwt.WithValidMethods ["RS256"]])
    as [token | err] eqn:Hparse.
  2:{ cbn [outcome_exchange]. split; [reflexivity |]. split; [reflexivity |].
      eexists. split; [reflexivity |]. split; [discriminate |].
      intros t cl Ht Hv. destruct (Hver t cl Ht Hv) as (? & _ & [=] & _). }
  destruct (jwt.Valid token) eqn:Hvalid; cbn [negb].
  2:{ cbn [outcome_exchange]. split; [reflexivity |]. split; [reflexivity |].
      eexists. split; [reflexivity |]. split; [discriminate |].
      intros t cl Ht Hv. destruct (Hver t cl Ht Hv) as (? & _ & [= <-] & ? & _).
      congruence. }
  destruct (jwt.TokenClaims token) as [claims |] eqn:Hclaims.
  2:{ cbn [outcome_exchange]. split; [reflexivity |]. split; [reflexivity |].
      eexists. split; [reflexivity |]. split; [discriminate |].
      intros t cl Ht Hv. destruct (Hver t cl Ht Hv) as (? & _ & [= <-] & _ & ?).
      congruence. }
  assert (Hin : forall t cl rest, presents x t -> verified_claims c x cl ->
     In (Printf "Raw Token: %s" [ArgString t])
        ([Printf "=== JWT Access Token Debug ===" [];
          Printf "Raw Token: %s" [ArgString tok];
          Printf "Claims: %s" [ArgClaimsJSON claims];
          Printf "===============================" []] ++ rest) /\
     In (Printf "Claims: %s" [ArgClaimsJSON cl])
        ([Printf "=== JWT Access Token Debug ===" [];
          Printf "Raw Token: %s" [ArgString tok];
          Printf "Claims: %s" [ArgClaimsJSON claims];
          Printf "===============================" []] ++ rest)).
  { intros t cl rest Ht Hv.
    destruct (Hver t cl Ht Hv) as (token' & -> & [= <-] & _ & Hcl).
    assert (cl = claims) as -> by congruence.
    split; [right; left; reflexivity | right; right; left; reflexivity]. }
  cbv zeta.
  destruct (validateAudience c claims), (validateIssuer c claims),
    (validateExpiration c (unix_now (debug_dump tok claims x)) claims),
    (validateScope c claims); cbn [negb outcome_exchange].
  all: split; [reflexivity |]; split; [reflexivity |].
  all: unfold sendUnauthorized, on_resp, debug_dump, log_Printf; cbn [logs].
  all: rewrite <- ?app_assoc; cbn [app].
  1: exists [Printf "=== JWT Access Token Debug ===" [];
             Printf "Raw Token: %s" [ArgString tok];
             Printf "Claims: %s" [ArgClaimsJSON claims];
             Printf "===============================" []].
  1: split; [reflexivity |]; split; [discriminate |];
     intros t cl Ht Hv; apply (Hin t cl [] Ht Hv).
  all: eexists; split; [reflexivity |]; split; [discriminate |].
  all: intros t cl Ht Hv;
       apply (Hin t cl [Printf _ []] Ht Hv).
Qed.

(** X7. Among verified claim sets the reason written to the log is the
    first check that fails in the order audience, issuer, expiry, scope: it
    is the last line of the log, after the four debug lines, and the
    response is the same 401 in each case. *)
Theorem logged_reason_is_first_failing_check
    (c : OAuthConfig) (x : Exchange) (claims : gmap string any) :
  verified_claims c x claims ->
  policy_passes c (unix_now x) claims = false ->
  exists tokenString reason,
    OAuthMiddleware_func c x =
      Return (sendUnauthorized c
                (log_Printf reason [] (debug_dump tokenString claims x))) /\
    (validateAudience c claims = false -> reason = "Invalid audience") /\
    (validateAudience c claims = true -> validateIssuer c claims = false ->
     reason = "Invalid issuer") /\
    (validateAudience c claims = true -> validateIssuer c claims = true ->
     validateExpiration c (unix_now x) claims = false -> reason = "Token expired") /\
    (validateAudience c claims = true -> validateIssuer c claims = true ->
     validateExpiration c (unix_now x) claims = true -> reason = "Insufficient scope").
Proof.
  intros (tok & token & Hp & Hparse & Hvalid & Hclaims) Hpass.
  exists tok. rewrite (func_presented c x tok Hp), Hparse, Hvalid, Hclaims.
  cbn [negb]. cbv zeta.
  change (unix_now (debug_dump tok claims x)) with (unix_now x).
  unfold policy_passes in Hpass.
  destruct (validateAudience c claims); cbn [negb andb] in *;
    [| eexists; split; [reflexivity |]; repeat split; congruence].
  destruct (validateIssuer c claims); cbn [negb andb] in *;
    [| eexists; split; [reflexivity |]; repeat split; congruence].
  destruct (validateExpiration c (unix_now x) claims); cbn [negb andb] in *;
    [| eexists; split; [reflexivity |]; repeat split; congruence].
  destruct (validateScope c claims); cbn [negb andb] in *; [discriminate |].
  eexists; split; [reflexivity |]; repeat split; congruence.
Qed.

End Logging.

Section Responses.

Context `{L : jwt.Library} `{P : Platform}.

(** X8. The 401 of [sendUnauthorized] keeps the headers that were set on the
    response writer before, except for the four it owns: the challenge, the
    content type (made plain text whatever it was), the no-sniff option, and
    the content length, which it removes. *)
Theorem sendUnauthorized_header_frame (c : OAuthConfig) (x : Exchange) :
  http.wrote (resp x) = None ->
  let w' := resp (sendUnauthorized c x) in
  http.sent_header w' "Content-Type" = "text/plain; charset=utf-8" /\
  http.sent_header w' "X-Content-Type-Options" = "nosniff" /\
  http.sent_header w' "Content-Length" = EmptyString /\
  (forall key,
     textproto.CanonicalMIMEHeaderKey key <> "Www-Authenticate" ->
     textproto.CanonicalMIMEHeaderKey key <> "Content-Type" ->
     textproto.CanonicalMIMEHeaderKey key <> "X-Content-Type-Options" ->
     textproto.CanonicalMIMEHeaderKey key <> "Content-Length" ->
     http.sent_header w' key = textproto.Get (http.header (resp x)) key).
Proof.
  intros Hw. cbv zeta.
  unfold sendUnauthorized, on_resp, http.Error, http.Write, http.WriteHeader,
    http.sent_header.
  cbn [resp http.wrote http.SetHeader http.DelHeader http.header http.body].
  rewrite Hw. cbn [http.wrote http.header http.body].
  split; [| split; [| split]].
  - rewrite Get_Set_ne by distinct_keys. apply Get_Set_eq.
  - apply Get_Set_eq.
  - rewrite !Get_Set_ne by distinct_keys.
    unfold textproto.Get, textproto.Del. now rewrite lookup_delete_eq.
  - intros key H1 H2 H3 H4.
    rewrite Get_Set_ne by (intros E; apply H3; now rewrite <- E).
    rewrite Get_Set_ne by (intros E; apply H2; now rewrite <- E).
    rewrite Get_Del_ne by (intros E; apply H4; now rewrite <- E).
    apply Get_Set_ne. intros E; apply H1; now rewrite <- E.
Qed.

(** X9. The metadata handler needs no credentials and reads nothing of the
    request but whether its method is OPTIONS: requests that agree on that
    get the same response on the same response writer, whatever their
    headers, paths and bodies. It leaves request and process log alone. *)
Theorem metadata_handler_reads_method_only (c : OAuthConfig) (x y : Exchange) :
  resp x = resp y ->
  String.eqb (http.Method (req x)) "OPTIONS" = String.eqb (http.Method (req y)) "OPTIONS" ->
  resp (HandleProtectedResourceMetadata c x) = resp (HandleProtectedResourceMetadata c y) /\
  req (HandleProtectedResourceMetadata c x) = req x /\
  logs (HandleProtectedResourceMetadata c x) = logs x.
Proof.
  intros Hr Hm. unfold HandleProtectedResourceMetadata, on_resp. cbn [req resp].
  rewrite Hm, Hr.
  destruct (String.eqb (http.Method (req y)) "OPTIONS"); repeat split.
Qed.

(** X10. The 401 challenge and the metadata document name the same
    resource: the challenge points to the well-known path under the very
    URL that the document served for a GET gives as its resource. *)
Theorem challenge_points_to_served_resource (c : OAuthConfig) (x y : Exchange) :
  http.wrote (resp x) = None ->
  http.wrote (resp y) = None ->
  http.Method (req y) <> "OPTIONS" ->
  exists doc,
    http.body (resp (HandleProtectedResourceMetadata c y)) =
      http.body (resp y) ++ [http.Encoded doc] /\
    http.sent_header (resp (sendUnauthorized c x)) "WWW-Authenticate" =
      "Bearer resource_metadata=" +:+ dquote +:+
      (oauthex.Resource doc +:+ "/.well-known/oauth-protected-resource") +:+ dquote /\
    strings.TrimPrefix (metadataURL c) (oauthex.Resource doc)
      = "/.well-known/oauth-protected-resource".
Proof.
  intros Hx Hy Hm. apply String.eqb_neq in Hm.
  eexists. split.
  - unfold HandleProtectedResourceMetadata, on_resp. cbn [req resp]. rewrite Hm.
    unfold http.Write, http.WriteHeader.
    cbn [resp http.wrote http.SetHeader http.header http.body]. rewrite Hy.
    cbn [http.body]. reflexivity.
  - cbn [oauthex.Resource]. split; [| apply TrimPrefix_present].
    now destruct (sendUnauthorized_reply c x Hx) as (_ & Hchal & _).
Qed.

End Responses.

Lemma append_empty_r (s : string) : s +:+ EmptyString = s.
Proof.
  induction s as [|ch s IH]; [reflexivity |].
  change (String ch (s +:+ EmptyString) = String ch s). now rewrite IH.
Qed.

(** [Split] of two strings put together with the separator between them. *)
Lemma Split_app_sep (a b : string) (sep : ascii) :
  strings.Split (a +:+ String sep b) sep = strings.Split a sep ++ strings.Split b sep.
Proof.
  induction a as [|ch a IH]; simpl.
  - now rewrite Ascii.eqb_refl.
  - rewrite IH. destruct (Ascii.eqb ch sep); [reflexivity |].
    pose proof (Split_nonempty a sep) as Hn.
    destruct (strings.Split a sep) as [|p ps]; [contradiction | reflexivity].
Qed.

Section Policy_more.

Context `{L : jwt.Library} `{P : Platform}.

(** X11. The scope check of two scope strings joined by a space is the
    disjunction of their checks, so that granting further scopes, before or
    after, never takes the access away; and a scope string without any space
    passes exactly when it is the literal mcp:tools itself (a longer word
    that contains it, another letter case, or tokens separated by tabs do
    not pass). *)
Theorem scope_check_of_joined_scopes
    (c : OAuthConfig) (claims : gmap string any) (scope extra : string) :
  let granted s := validateScope c (<["scope" := Str s]> claims) in
  granted (scope +:+ " " +:+ extra) = granted scope || granted extra /\
  (granted scope = true ->
   granted (scope +:+ " " +:+ extra) = true /\ granted (extra +:+ " " +:+ scope) = true) /\
  (spaceless scope = true -> (granted scope = true <-> scope = "mcp:tools")).
Proof.
  cbv zeta. unfold validateScope. rewrite !lookup_insert_eq.
  change (" " +:+ extra) with (String " " extra).
  change (" " +:+ scope) with (String " " scope).
  rewrite !Split_app_sep, !existsb_app.
  split; [reflexivity |]. split.
  - intros ->. split; [reflexivity | apply orb_true_r].
  - intros Hs. rewrite (Split_spaceless_one scope Hs). cbn [existsb].
    rewrite orb_false_r. apply String.eqb_eq.
Qed.

(** X12. The audience check treats a single string like the collection with
    that one element, fails on the empty collection, passes on two
    collections put together exactly when it passes on one of them, and
    takes a string that merely begins with the resource URL (a trailing
    slash, a path) for a different audience. *)
Theorem audience_check_shapes (c : OAuthConfig) (claims : gmap string any) :
  let accepted aud := validateAudience c (<["aud" := aud]> claims) in
  (forall s, accepted (Str s) = accepted (Slice [Str s])) /\
  accepted (Slice []) = false /\
  (forall l l', accepted (Slice (l ++ l')) = accepted (Slice l) || accepted (Slice l')) /\
  (forall suffix, accepted (Str (ResourceURL c +:+ suffix)) = true <->
                  suffix = EmptyString).
Proof.
  cbv zeta. unfold validateAudience. split; [| split; [| split]].
  - intros s. rewrite !lookup_insert_eq. cbn [existsb]. now rewrite orb_false_r.
  - now rewrite lookup_insert_eq.
  - intros l l'. rewrite !lookup_insert_eq. apply existsb_app.
  - intros suffix. rewrite lookup_insert_eq, String.eqb_eq. split.
    + intros Heq. apply (f_equal String.length) in Heq.
      rewrite length_app_string in Heq. destruct suffix; [reflexivity | simpl in Heq; lia].
    + intros ->. apply append_empty_r.
Qed.

End Policy_more.

(** X13. The echo tool never fails and answers with one text item, the
    message behind the prefix Echo: ; the message is what is left when the
    prefix is cut off, so that different messages get different answers. *)
Theorem Echo_round_trip (args : EchoArgs) :
  (exists text,
     Echo args = ({| mcp.Content_ := [mcp.TextContent text] |}, Nil, None) /\
     strings.TrimPrefix text "Echo: " = Message args /\
     String.length text = (6 + String.length (Message args))%nat) /\
  (forall args', Echo args = Echo args' -> args = args').
Proof.
  split.
  - exists ("Echo: " +:+ Message args). split; [reflexivity |].
    split; [apply TrimPrefix_present | apply length_app_string].
  - intros [m'] H. destruct args as [m]. unfold Echo in H. cbn [Message] in H.
    assert (E : "Echo: " +:+ m = "Echo: " +:+ m') by congruence.
    apply (f_equal (fun t => strings.TrimPrefix t "Echo: ")) in E.
    rewrite !TrimPrefix_present in E. now subst.
Qed.

(** ** The further properties at work on the test double *)

(** Witness of X1: the forwarded request with the token [good]. *)
Lemma forwarding_requires_accepted_token_witness :
  let x := sample_exchange "POST" (Some "Bearer good") 1060 in
  exists tokenString token claims,
    presents x tokenString /\
    @jwt.Parse sample_library tokenString (jwks sample_config)
      [jwt.WithValidMethods ["RS256"]] = inl token /\
    jwt.Valid token = true /\
    jwt.TokenClaims token = jwt.MapClaims claims /\
    @policy_passes sample_library amd64 sample_config (unix_now x) claims = true /\
    debug_dump "good" (claims_of "good") x = debug_dump tokenString claims x.
Proof.
  apply (@forwarding_requires_accepted_token sample_library amd64 sample_config
           (sample_exchange "POST" (Some "Bearer good") 1060)
           (debug_dump "good" (claims_of "good")
              (sample_exchange "POST" (Some "Bearer good") 1060))).
  vm_compute. reflexivity.
Defined.

(** Witness of X2: the issuer of [good] is the configured one. *)
Lemma issuer_check_is_exact_equality_witness :
  let x := sample_exchange "POST" (Some "Bearer good") 1060 in
  let claims := claims_of "good" in
  (validateIssuer sample_config claims = true <->
   claims !! "iss" = Some (Str (AuthzServerURL sample_config))) /\
  (claims !! "iss" <> Some (Str (AuthzServerURL sample_config)) ->
   @rejects sample_library amd64 sample_config x) /\
  (forall suffix,
     claims !! "iss" = Some (Str (AuthzServerURL sample_config +:+ suffix)) ->
     suffix <> EmptyString -> @rejects sample_library amd64 sample_config x).
Proof.
  apply (@issuer_check_is_exact_equality sample_library amd64 sample_config
           (sample_exchange "POST" (Some "Bearer good") 1060) (claims_of "good")).
  - reflexivity.
  - apply (sample_verified "POST" "good" 1060); vm_compute; reflexivity.
Defined.

(** Witness of X3: the claims of [good] between 1060 and 2000. *)
Lemma expiry_check_is_monotone_witness :
  let claims := claims_of "good" in
  (@validateExpiration sample_library amd64 sample_config 2000 claims = true ->
   @validateExpiration sample_library amd64 sample_config 1060 claims = true) /\
  (@validateExpiration sample_library amd64 sample_config 1060 claims = false ->
   @validateExpiration sample_library amd64 sample_config 2000 claims = false).
Proof.
  apply (@expiry_check_is_monotone sample_library amd64 sample_config
           (claims_of "good") 1060 2000).
  lia.
Defined.

(** Witness of X5: the same bearer token sent with POST and with DELETE. *)
Lemma gate_reads_authorization_header_only_witness :
  let x := sample_exchange "POST" (Some "Bearer good") 1060 in
  let y := sample_exchange "DELETE" (Some "Bearer good") 1060 in
  (@forwards sample_library amd64 sample_config x <->
   @forwards sample_library amd64 sample_config y) /\
  ((exists x', @OAuthMiddleware_func sample_library amd64 sample_config x = Return x') <->
   (exists y', @OAuthMiddleware_func sample_library amd64 sample_config y = Return y')).
Proof.
  apply (@gate_reads_authorization_header_only sample_library amd64 sample_config
           (sample_exchange "POST" (Some "Bearer good") 1060)
           (sample_exchange "DELETE" (Some "Bearer good") 1060)).
  - vm_compute. reflexivity.
  - reflexivity.
Defined.

(** Witness of X7: the token [other-aud] fails the audience check. *)
Lemma logged_reason_is_first_failing_check_witness :
  let x := sample_exchange "POST" (Some "Bearer other-aud") 1060 in
  let claims := claims_of "other-aud" in
  exists tokenString reason,
    @OAuthMiddleware_func sample_library amd64 sample_config x =
      Return (sendUnauthorized sample_config
                (log_Printf reason [] (debug_dump tokenString claims x))) /\
    (validateAudience sample_config claims = false -> reason = "Invalid audience") /\
    (validateAudience sample_config claims = true ->
     validateIssuer sample_config claims = false -> reason = "Invalid issuer") /\
    (validateAudience sample_config claims = true ->
     validateIssuer sample_config claims = true ->
     @validateExpiration sample_library amd64 sample_config (unix_now x) claims = false ->
     reason = "Token expired") /\
    (validateAudience sample_config claims = true ->
     validateIssuer sample_config claims = true ->
     @validateExpiration sample_library amd64 sample_config (unix_now x) claims = true ->
     reason = "Insufficient scope").
Proof.
  apply (@logged_reason_is_first_failing_check sample_library amd64 sample_config
           (sample_exchange "POST" (Some "Bearer other-aud") 1060)
           (claims_of "other-aud")).
  - apply (sample_verified "POST" "other-aud" 1060); vm_compute; reflexivity.
  - vm_compute. reflexivity.
Defined.

(** Witness of X8: a rejected request on a writer with a content type and a
    header of its own already set. *)
Lemma sendUnauthorized_header_frame_witness :
  let x := on_resp (http.SetHeader "X-Request-Id" "42")
             (on_resp (http.SetHeader "Content-Type" "application/json")
                (sample_exchange "POST" None 1060)) in
  let w' := resp (@sendUnauthorized sample_library sample_config x) in
  http.sent_header w' "Content-Type" = "text/plain; charset=utf-8" /\
  http.sent_header w' "X-Content-Type-Options" = "nosniff" /\
  http.sent_header w' "Content-Length" = EmptyString /\
  (forall key,
     textproto.CanonicalMIMEHeaderKey key <> "Www-Authenticate" ->
     textproto.CanonicalMIMEHeaderKey key <> "Content-Type" ->
     textproto.CanonicalMIMEHeaderKey key <> "X-Content-Type-Options" ->
     textproto.CanonicalMIMEHeaderKey key <> "Content-Length" ->
     http.sent_header w' key = textproto.Get (http.header (resp x)) key).
Proof.
  apply (@sendUnauthorized_header_frame sample_library sample_config
           (on_resp (http.SetHeader "X-Request-Id" "42")
              (on_resp (http.SetHeader "Content-Type" "application/json")
                 (sample_exchange "POST" None 1060)))).
  reflexivity.
Defined.

(** Witness of X9: a GET without credentials and a POST with a token. *)
Lemma metadata_handler_reads_method_only_witness :
  let x := sample_exchange "GET" None 1060 in
  let y := sample_exchange "POST" (Some "Bearer good") 7 in
  resp (@HandleProtectedResourceMetadata sample_library sample_config x) =
    resp (@HandleProtectedResourceMetadata sample_library sample_config y) /\
  req (@HandleProtectedResourceMetadata sample_library sample_config x) = req x /\
  logs (@HandleProtectedResourceMetadata sample_library sample_config x) = logs x.
Proof.
  apply (@metadata_handler_reads_method_only sample_library sample_config
           (sample_exchange "GET" None 1060)
           (sample_exchange "POST" (Some "Bearer good") 7)).
  - reflexivity.
  - reflexivity.
Defined.

(** Witness of X10: a rejected POST and a GET for the metadata. *)
Lemma challenge_points_to_served_resource_witness :
  let x := sample_exchange "POST" None 1060 in
  let y := sample_exchange "GET" None 1060 in
  exists doc,
    http.body (resp (@HandleProtectedResourceMetadata sample_library sample_config y)) =
      http.body (resp y) ++ [http.Encoded doc] /\
    http.sent_header (resp (@sendUnauthorized sample_library sample_config x))
      "WWW-Authenticate" =
      "Bearer resource_metadata=" +:+ dquote +:+
      (oauthex.Resource doc +:+ "/.well-known/oauth-protected-resource") +:+ dquote /\
    strings.TrimPrefix (metadataURL sample_config) (oauthex.Resource doc)
      = "/.well-known/oauth-protected-resource".
Proof.
  apply (@challenge_points_to_served_resource sample_library sample_config
           (sample_exchange "POST" None 1060) (sample_exchange "GET" None 1060)).
  - reflexivity.
  - reflexivity.
  - discriminate.
Defined.

(** ** The expiry check taken by itself, and behind the parser *)

(** An integer below a rational is at most its truncation. *)
Lemma Qtrunc_above (q : Q) (k : Z) : (inject_Z k < q)%Q -> k <= Qtrunc q.
Proof.
  destruct q as [a d]. unfold Qlt, Qtrunc. simpl. intros H.
  destruct (Z.le_gt_cases 0 a) as [Ha | Ha].
  - rewrite Z.quot_div_nonneg by lia. apply Z.div_le_lower_bound; lia.
  - replace a with (- (- a)) by lia.
    rewrite Z.quot_opp_l by discriminate.
    rewrite Z.quot_div_nonneg by lia.
    assert (- a / Z.pos d <= - k); [| lia].
    apply Z.div_le_upper_bound; lia.
Qed.

Section Expiry.

Context `{L : jwt.Library} `{P : Platform}.

(** X15. [validateExpiration] by itself, on a claim set whose [exp] is a
    binary64 number that fits [int64]: it passes exactly while the Unix time
    in whole seconds is below [exp] truncated towards zero plus 60, without
    wrap-around. For a whole-second [exp] that is [now < exp + 60]; it fails
    when [exp] is more than 60 seconds in the past, and passes whenever
    [exp] is still ahead. *)
Theorem validateExpiration_truncated_skew_rule
    (c : OAuthConfig) (now : Z) (claims : gmap string any) (exp : float64) :
  claims !! "exp" = Some (Float64 exp) ->
  float64_valid exp = true -> float64_finite exp = true ->
  in_int64 (Qtrunc (float64_val exp)) = true ->
  (validateExpiration c now claims = true <-> now < Qtrunc (float64_val exp) + 60) /\
  (forall k, (float64_val exp == inject_Z k)%Q ->
             (validateExpiration c now claims = true <-> now < k + 60)) /\
  ((float64_val exp + 60 < inject_Z now)%Q -> validateExpiration c now claims = false) /\
  ((inject_Z now < float64_val exp)%Q -> validateExpiration c now claims = true).
Proof.
  intros Hexp Hvalid Hfin Hin.
  pose proof (validateExpiration_skew c now claims exp Hexp Hvalid Hfin Hin) as Hrule.
  split; [exact Hrule |]. split; [| split].
  - intros k Hk. now rewrite Hrule, (Qtrunc_integer _ _ Hk).
  - intros Hpast. apply not_true_iff_false. rewrite Hrule.
    apply Qtrunc_shift_below in Hpast. lia.
  - intros Hahead. apply Hrule. apply Qtrunc_above in Hahead. lia.
Qed.


End Expiry.

(** Witness of X15: the claims of [fractional], whose [exp] is 1000.5, at
    1060. *)
Lemma validateExpiration_truncated_skew_rule_witness :
  let claims := claims_of "fractional" in
  let exp := binary64 2001 (-1) in
  (@validateExpiration sample_library amd64 sample_config 1060 claims = true <->
   1060 < Qtrunc (float64_val exp) + 60) /\
  (forall k, (float64_val exp == inject_Z k)%Q ->
     (@validateExpiration sample_library amd64 sample_config 1060 claims = true <->
      1060 < k + 60)) /\
  ((float64_val exp + 60 < inject_Z 1060)%Q ->
   @validateExpiration sample_library amd64 sample_config 1060 claims = false) /\
  ((inject_Z 1060 < float64_val exp)%Q ->
   @validateExpiration sample_library amd64 sample_config 1060 claims = true).
Proof.
  apply (@validateExpiration_truncated_skew_rule sample_library amd64 sample_config
           1060 (claims_of "fractional") (binary64 2001 (-1))).
  - vm_compute. reflexivity.
  - vm_compute. reflexivity.
  - reflexivity.
  - vm_compute. reflexivity.
Defined.

